(** * GTrader: the Myriad API client and the REST gateway state

    A shallow embedding of [myriad_client.py] (class [MyriadAPIClient]) and of
    the state-handling endpoints of [api.py], followed by the properties of
    the request builder, the transport retry policy and the in-memory
    gateway state. *)

From Stdlib Require Import QArith Ascii String.
From stdpp Require Import gmap strings list pretty.

#[local] Set Warnings "-register-all".
#[local] Open Scope Z_scope.

(** ** Python values *)

(** A Python [float].  Floats are only stored and forwarded here, never
    computed with: a finite one is carried as the rational it denotes, and
    the two infinities and [nan] are values of their own. *)
Inductive pyfloat :=
| Finite (q : Q)
| PosInf
| NegInf
| NaN.

(** The values that travel through the client and the gateway: what a JSON
    document or a pydantic [.dict()] can hold. *)
Inductive pyobj :=
| VNone
| VBool (b : bool)
| VInt (z : Z)
| VFloat (f : pyfloat)
| VStr (s : string)
| VList (l : list pyobj)
| VDict (d : gmap string pyobj).

Module Py.

(** [if s:] on an [Optional[str]]: [None] and the empty string are falsy.
    The result is the string when the test succeeds. *)
Definition truthy (s : option string) : option string :=
  match s with
  | Some (String _ _ as s') => Some s'
  | _ => None
  end.

(** A keyword argument with a default: [None] stands for the argument
    being left out at the call site. *)
Definition kwarg {A} (dflt : A) (a : option A) : A :=
  match a with Some x => x | None => dflt end.

(** [s.lstrip("/")] *)
Fixpoint lstrip_slash (s : string) : string :=
  match s with
  | String "/"%char r => lstrip_slash r
  | _ => s
  end.

(** [s.rstrip("/")] *)
Fixpoint rstrip_slash (s : string) : string :=
  match s with
  | EmptyString => EmptyString
  | String c r =>
      match rstrip_slash r with
      | EmptyString => if Ascii.eqb c "/" then EmptyString else String c EmptyString
      | r' => String c r'
      end
  end.

(** Upper-casing of the letters a to z in one character. *)
Definition ascii_upper_char (c : ascii) : ascii :=
  let n := nat_of_ascii c in
  if ((97 <=? n)%nat && (n <=? 122)%nat)%bool then ascii_of_nat (n - 32) else c.

(** Upper-casing of the letters a to z, every other character kept.  This
    is what [str.upper] does to a string of ASCII characters; it is not
    [str.upper] on other strings, and stands in for it on ASCII strings
    only. *)
Fixpoint ascii_upper (s : string) : string :=
  match s with
  | EmptyString => EmptyString
  | String c r => String (ascii_upper_char c) (ascii_upper r)
  end.

(** [math.isfinite(f)] *)
Definition isfinite (f : pyfloat) : bool :=
  match f with Finite _ => true | _ => false end.

(** Whether [json.dumps(v, allow_nan=False)] succeeds: no float in [v],
    at any depth, is an infinity or [nan]. *)
Fixpoint json_encodable (v : pyobj) : bool :=
  match v with
  | VFloat f => isfinite f
  | VList l => forallb json_encodable l
  | VDict d => map_fold (fun _ v acc => json_encodable v && acc) true d
  | _ => true
  end.

(** The same for the [json=] argument of a request, [None] when there is
    no body. *)
Definition json_encodable_body (j : option (gmap string pyobj)) : bool :=
  match j with Some d => json_encodable (VDict d) | None => true end.

(** [f"{n}"] for an [int]. *)
Definition fmt_int (n : Z) : string := pretty n.

End Py.

(** ** myriad_client.py *)

Module myriad_client.

(** One HTTP request as [requests.Session.request] puts it on the wire. *)
Record request := {
  method : string;
  url : string;
  headers : gmap string string;
  params : option (gmap string pyobj);
  json : option (gmap string pyobj);
  timeout : Z
}.

(** What comes back: the status line and the body, already parsed when it
    is JSON ([None] when it is not). *)
Record response := {
  status_code : Z;
  body : option pyobj
}.

(** The exceptions of [requests.exceptions] that the transport can raise
    in this model, each a [RequestException]. *)
Inductive RequestException :=
| RetryError
| HTTPError (status : Z)
| InvalidJSONError
| JSONDecodeError.

(** The exceptions a client method ends with: [ValueError msg] is the
    object a [raise ValueError(msg)] of the client creates, [RequestError e]
    one that comes out of [requests]. *)
Inductive exn :=
| ValueError (msg : string)
| RequestError (e : RequestException).



(** [urllib3.util.retry.Retry], the fields the client sets. *)
Record Retry := {
  total : nat;
  backoff_factor : Z;
  status_forcelist : list Z;
  allowed_methods : list string
}.

Record MyriadAPIClient := {
  api_key : option string;
  base_url : string;
  client_timeout : Z;
  max_retries : Retry;
  session_headers : gmap string string
}.

(** The wire: every HTTP attempt made so far, oldest first. *)
Definition wire := list request.

(** Computations of the client: they may raise, and they may put requests
    on the wire. *)
Definition M (A : Type) : Type := wire -> (exn + A) * wire.

Definition ret {A} (a : A) : M A := fun w => (inr a, w).
Definition raise {A} (e : exn) : M A := fun w => (inl e, w).
Definition bind {A B} (m : M A) (k : A -> M B) : M B :=
  fun w => match m w with
           | (inl e, w') => (inl e, w')
           | (inr a, w') => k a w'
           end.

Declare Scope py_scope.
Delimit Scope py_scope with py.
Notation "x <- m ;; k" := (bind m (fun x => k))
  (at level 100, m at next level, right associativity) : py_scope.

(** The requests that a computation started on wire [w] has added when it
    ends on wire [w']. *)
Definition sent (w w' : wire) : list request := drop (length w) w'.

(** [MyriadAPIClient.__init__]; [env_key] is [os.getenv("MYRIAD_API_KEY")]. *)
Definition __init__ (env_key : option string)
    (api_key : option string) (base_url : option string) (timeout : option Z)
    : MyriadAPIClient :=
  let base_url := Py.kwarg "https://api-v2.myriadprotocol.com/"%string base_url in
  let timeout := Py.kwarg 30 timeout in
  let api_key := match Py.truthy api_key with Some k => Some k | None => env_key end in
  let retry_strategy :=
    {| total := 3;
       backoff_factor := 1;
       status_forcelist := [429; 500; 502; 503; 504];
       allowed_methods := ["GET"; "POST"]%string |} in
  {| api_key := api_key;
     base_url := Py.rstrip_slash base_url;
     client_timeout := timeout;
     max_retries := retry_strategy;
     session_headers :=
       match Py.truthy api_key with
       | Some k => {[ "x-api-key"%string := k ]}
       | None => ∅
       end |}.

(** The request [_make_request] hands to the session: the [url] it
    builds and the keyword arguments of [self.session.request]. *)
Definition request_of (self : MyriadAPIClient) (method endpoint : string)
    (params json : option (gmap string pyobj)) : request :=
  {| method := method;
     url := base_url self +:+ "/" +:+ Py.lstrip_slash endpoint;
     headers := session_headers self;
     params := params; json := json;
     timeout := client_timeout self |}.

Section Transport.

(** The upstream service: its answer to the [n]-th attempt on the wire. *)
Variable upstream : nat -> request -> response.

Definition is_retry (r : Retry) (m : string) (status : Z) : bool :=
  bool_decide (m ∈ allowed_methods r) && bool_decide (status ∈ status_forcelist r).

(** Modelled from the spec: the retry loop of the [HTTPAdapter] mounted
    with [max_retries=retry_strategy] lives in requests and urllib3, not
    in this repository.  An attempt whose status is in
    [status_forcelist], for a method of [allowed_methods], is retried
    while the budget lasts, each retry spending one unit of [total];
    once the budget is spent the adapter raises [RetryError].  The
    waiting between attempts ([backoff_factor]) is not modelled. *)
Fixpoint send (budget : nat) (r : Retry) (req : request) (w : wire)
    : (RequestException + response) * wire :=
  let resp := upstream (length w) req in
  let w' := w ++ [req] in
  if is_retry r (method req) (status_code resp) then
    match budget with
    | O => (inl RetryError, w')
    | S budget' => send budget' r req w'
    end
  else (inr resp, w').

(** [self.session.request(...)]: the session prepares the request before
    anything is sent, and encoding the [json=] argument refuses an infinity
    or a [nan] with [InvalidJSONError]. *)
Definition session_request (self : MyriadAPIClient) (req : request) (w : wire)
    : (RequestException + response) * wire :=
  if Py.json_encodable_body (json req)
  then send (total (max_retries self)) (max_retries self) req w
  else (inl InvalidJSONError, w).

(** [response.raise_for_status()] *)
Definition raise_for_status (resp : response) : RequestException + unit :=
  if (400 <=? status_code resp) && (status_code resp <? 600)
  then inl (HTTPError (status_code resp))
  else inr tt.

(** [MyriadAPIClient._make_request]: the [except] clause logs and
    re-raises. *)
Definition _make_request (self : MyriadAPIClient) (method endpoint : string)
    (params json : option (gmap string pyobj)) : M pyobj :=
  fun w =>
    match session_request self (request_of self method endpoint params json) w with
    | (inl e, w') => (inl (RequestError e), w')
    | (inr resp, w') =>
        match raise_for_status resp with
        | inl e => (inl (RequestError e), w')
        | inr _ =>
            match body resp with
            | Some v => (inr v, w')
            | None => (inl (RequestError JSONDecodeError), w')
            end
        end
    end.

(** [MyriadAPIClient.get_market] *)
Definition get_market (self : MyriadAPIClient)
    (market_id : option Z) (slug : option string) (network_id : option Z)
    : M pyobj :=
  match Py.truthy slug with
  | Some slug => _make_request self "GET" ("/markets/" +:+ slug) None None
  | None =>
      match market_id, network_id with
      | Some market_id, Some network_id =>
          _make_request self "GET" ("/markets/" +:+ Py.fmt_int market_id)
            (Some {[ "network_id"%string := VInt network_id ]}) None
      | _, _ =>
          raise (ValueError "Must provide either slug or (market_id + network_id)")
      end
  end.

Definition set_opt (k : string) (v : option Z) (d : gmap string pyobj)
    : gmap string pyobj :=
  match v with Some z => <[ k := VInt z ]> d | None => d end.

(** [MyriadAPIClient.get_market_events] *)
Definition get_market_events (self : MyriadAPIClient)
    (market_id : option Z) (slug : option string) (network_id : option Z)
    (page limit : option Z) (since until : option Z) : M pyobj :=
  let page := Py.kwarg 1 page in
  let limit := Py.kwarg 50 limit in
  let params : gmap string pyobj :=
    <[ "limit"%string := VInt limit ]> {[ "page"%string := VInt page ]} in
  let params := set_opt "since" since params in
  let params := set_opt "until" until params in
  let params := set_opt "network_id" network_id params in
  match Py.truthy slug with
  | Some slug =>
      _make_request self "GET" ("/markets/" +:+ slug +:+ "/events") (Some params) None
  | None =>
      match market_id with
      | Some market_id =>
          _make_request self "GET"
            ("/markets/" +:+ Py.fmt_int market_id +:+ "/events") (Some params) None
      | None => raise (ValueError "Must provide either slug or market_id")
      end
  end.

(** [MyriadAPIClient.get_market_holders] *)
Definition get_market_holders (self : MyriadAPIClient)
    (market_id : option Z) (slug : option string) (network_id : option Z)
    (page limit : option Z) : M pyobj :=
  let page := Py.kwarg 1 page in
  let limit := Py.kwarg 50 limit in
  let params : gmap string pyobj :=
    <[ "limit"%string := VInt limit ]> {[ "page"%string := VInt page ]} in
  let params := set_opt "network_id" network_id params in
  match Py.truthy slug with
  | Some slug =>
      _make_request self "GET" ("/markets/" +:+ slug +:+ "/holders") (Some params) None
  | None =>
      match market_id with
      | Some market_id =>
          _make_request self "GET"
            ("/markets/" +:+ Py.fmt_int market_id +:+ "/holders") (Some params) None
      | None => raise (ValueError "Must provide either slug or market_id")
      end
  end.

(** [MyriadAPIClient.get_market_quote] *)
Definition get_market_quote (self : MyriadAPIClient)
    (outcome_id : Z) (action : string)
    (market_id : option Z) (market_slug : option string) (network_id : option Z)
    (value shares : option pyfloat) (slippage : option pyfloat) : M pyobj :=
  (let slippage := Py.kwarg (Finite 0.005) slippage in
   body <- match Py.truthy market_slug with
           | Some market_slug =>
               ret ({[ "market_slug"%string := VStr market_slug ]} : gmap string _)
           | None =>
               match market_id, network_id with
               | Some market_id, Some network_id =>
                   ret (<[ "network_id"%string := VInt network_id ]>
                          {[ "market_id"%string := VInt market_id ]})
               | _, _ =>
                   raise (ValueError
                     "Must provide either market_slug or (market_id + network_id)")
               end
           end ;;
   let body := <[ "outcome_id"%string := VInt outcome_id ]> body in
   let body := <[ "action"%string := VStr action ]> body in
   let body := <[ "slippage"%string := VFloat slippage ]> body in
   body <- (if String.eqb action "buy" then
              match value with
              | None => raise (ValueError "For buy action, 'value' is required")
              | Some value => ret (<[ "value"%string := VFloat value ]> body)
              end
            else if String.eqb action "sell" then
              match value, shares with
              | None, None =>
                  raise (ValueError
                    "For sell action, either 'value' or 'shares' is required")
              | Some value, _ => ret (<[ "value"%string := VFloat value ]> body)
              | None, Some shares => ret (<[ "shares"%string := VFloat shares ]> body)
              end
            else raise (ValueError "Action must be 'buy' or 'sell'")) ;;
   _make_request self "POST" "/markets/quote" None (Some body))%py.

(** [if v: params[k] = v] for an [Optional[str]] *)
Definition set_str (k : string) (v : option string) (d : gmap string pyobj)
    : gmap string pyobj :=
  match Py.truthy v with Some s => <[ k := VStr s ]> d | None => d end.



(** [MyriadAPIClient.get_markets] *)
Definition get_markets (self : MyriadAPIClient)
    (page limit : option Z) (sort order : option string)
    (network_id : option Z) (state token_address topics keyword : option string)
    : M pyobj :=
  let page := Py.kwarg 1 page in
  let limit := Py.kwarg 20 limit in
  let sort := Py.kwarg "volume"%string sort in
  let order := Py.kwarg "desc"%string order in
  let params : gmap string pyobj :=
    <[ "order"%string := VStr order ]>
      (<[ "sort"%string := VStr sort ]>
         (<[ "limit"%string := VInt limit ]> {[ "page"%string := VInt page ]})) in
  let params := set_opt "network_id" network_id params in
  let params := set_str "state" state params in
  let params := set_str "token_address" token_address params in
  let params := set_str "topics" topics params in
  let params := set_str "keyword" keyword params in
  _make_request self "GET" "/markets" (Some params) None.


(** [MyriadAPIClient.get_user_portfolio] *)
Definition get_user_portfolio (self : MyriadAPIClient) (address : string)
    (page limit : option Z) (market_slug : option string)
    (market_id network_id : option Z) (token_address : option string)
    : M pyobj :=
  let page := Py.kwarg 1 page in
  let limit := Py.kwarg 20 limit in
  let params : gmap string pyobj :=
    <[ "limit"%string := VInt limit ]> {[ "page"%string := VInt page ]} in
  let params := set_str "market_slug" market_slug params in
  let params := set_opt "market_id" market_id params in
  let params := set_opt "network_id" network_id params in
  let params := set_str "token_address" token_address params in
  _make_request self "GET" ("/users/" +:+ address +:+ "/portfolio") (Some params) None.

End Transport.

#[global] Arguments _make_request : simpl never.

End myriad_client.

(** ** api.py: the gateway state and its handlers *)

Module api.

(** What a handler can raise on a state of the wrong shape. *)
Inductive py_error := KeyError | AttributeError | TypeError.

Record TradeDecision := {
  td_timestamp : string;
  td_asset : string;
  td_action : string;
  td_conviction : string;
  td_signal_type : string;
  td_reasoning : string;
  td_position_size : option pyfloat;
  td_entry_price : option pyfloat;
  td_take_profit : option pyfloat;
  td_stop_loss : option pyfloat
}.

Record Trade := {
  tr_timestamp : string;
  tr_asset : string;
  tr_action : string;
  tr_size : pyfloat;
  tr_price : pyfloat;
  tr_value : pyfloat;
  tr_status : string
}.

Definition opt_float (f : option pyfloat) : pyobj :=
  match f with Some f => VFloat f | None => VNone end.

(** [decision.dict()] *)
Definition TradeDecision_dict (d : TradeDecision) : pyobj :=
  VDict (list_to_map
    [ ("timestamp", VStr (td_timestamp d)); ("asset", VStr (td_asset d));
      ("action", VStr (td_action d)); ("conviction", VStr (td_conviction d));
      ("signal_type", VStr (td_signal_type d)); ("reasoning", VStr (td_reasoning d));
      ("position_size", opt_float (td_position_size d));
      ("entry_price", opt_float (td_entry_price d));
      ("take_profit", opt_float (td_take_profit d));
      ("stop_loss", opt_float (td_stop_loss d)) ]%string).

(** The fields of a [Trade], by name. *)
Definition Trade_fields (t : Trade) : gmap string pyobj :=
  list_to_map
    [ ("timestamp", VStr (tr_timestamp t)); ("asset", VStr (tr_asset t));
      ("action", VStr (tr_action t)); ("size", VFloat (tr_size t));
      ("price", VFloat (tr_price t)); ("value", VFloat (tr_value t));
      ("status", VStr (tr_status t)) ]%string.

(** [trade.dict()] *)
Definition Trade_dict (t : Trade) : pyobj := VDict (Trade_fields t).

(** The module-level [gtrader_state] as the import leaves it. *)
Definition gtrader_state : gmap string pyobj :=
  list_to_map
    [ ("status", VStr "idle"); ("last_update", VNone); ("account_value", VFloat (Finite 0));
      ("positions", VList []); ("recent_decisions", VList []);
      ("trade_history", VList []); ("market_analyses", VList []) ]%string.

(** [update_state]: [gtrader_state.update(state_data)], then the time stamp;
    [now] is [datetime.utcnow().isoformat()]. *)
Definition update_state (state_data : gmap string pyobj) (now : string)
    (st : gmap string pyobj) : gmap string pyobj :=
  <[ "last_update"%string := VStr now ]> (state_data ∪ st).

(** [add_decision]: [insert(0, ...)] on the stored list, then the slice
    [[:100]] stored back. *)
Definition add_decision (decision : TradeDecision) (st : gmap string pyobj)
    : py_error + gmap string pyobj :=
  match st !! "recent_decisions"%string with
  | None => inl KeyError
  | Some (VList l) =>
      let l := TradeDecision_dict decision :: l in
      inr (<[ "recent_decisions"%string := VList (take 100 l) ]> st)
  | Some _ => inl AttributeError
  end.

(** [add_trade] *)
Definition add_trade (trade : Trade) (st : gmap string pyobj)
    : py_error + gmap string pyobj :=
  match st !! "trade_history"%string with
  | None => inl KeyError
  | Some (VList l) => inr (<[ "trade_history"%string := VList (Trade_dict trade :: l) ]> st)
  | Some _ => inl AttributeError
  end.

(** [startup_event] and [shutdown_event] *)
Definition startup_event (now : string) (st : gmap string pyobj) : gmap string pyobj :=
  <[ "last_update"%string := VStr now ]> (<[ "status"%string := VStr "running" ]> st).

Definition shutdown_event (st : gmap string pyobj) : gmap string pyobj :=
  <[ "status"%string := VStr "stopped" ]> st.

(** [t.get(k)]: only a dict has [get]; a missing key gives [None]. *)
Definition dict_get (t : pyobj) (k : string) : py_error + pyobj :=
  match t with
  | VDict d => inr (default VNone (d !! k))
  | _ => inl AttributeError
  end.

(** [v == s] for a string [s] *)
Definition eq_str (v : pyobj) (s : string) : bool :=
  match v with VStr s' => String.eqb s' s | _ => false end.

(** [[t for t in l if t.get(k) == want]] *)
Fixpoint select (k want : string) (l : list pyobj) : py_error + list pyobj :=
  match l with
  | [] => inr []
  | t :: l' =>
      match dict_get t k with
      | inl e => inl e
      | inr v =>
          match select k want l' with
          | inl e => inl e
          | inr r => inr (if eq_str v want then t :: r else r)
          end
      end
  end.

(** [get_trade_history], the handler of [GET /trades].  [str_upper] is
    Python's [str.upper], a built-in that is no part of the repository and
    is taken as a parameter.  [limit] has passed the bounds of its [Query]
    (1 to 500).  A stored history that is not a list makes the handler
    raise or answer with something that is not a list of trades; both are
    [TypeError] here. *)
Definition get_trade_history (str_upper : string -> string)
    (limit : option nat) (asset status : option string)
    (st : gmap string pyobj) : py_error + list pyobj :=
  let limit := Py.kwarg 50%nat limit in
  match st !! "trade_history"%string with
  | None => inl KeyError
  | Some (VList trades) =>
      match (match Py.truthy asset with
             | Some asset => select "asset" (str_upper asset) trades
             | None => inr trades
             end) with
      | inl e => inl e
      | inr trades =>
          match (match Py.truthy status with
                 | Some status => select "status" status trades
                 | None => inr trades
                 end) with
          | inl e => inl e
          | inr trades => inr (take limit trades)
          end
      end
  | Some _ => inl TypeError
  end.

(** The calls that write to [gtrader_state]; every other handler only
    reads it. *)
Inductive op :=
| UpdateState (state_data : gmap string pyobj) (now : string)
| AddDecision (decision : TradeDecision)
| AddTrade (trade : Trade)
| Startup (now : string)
| Shutdown.

(** One call; a handler that raises leaves the state as it was. *)
Definition step (st : gmap string pyobj) (o : op) : gmap string pyobj :=
  match o with
  | UpdateState state_data now => update_state state_data now st
  | AddDecision d => match add_decision d st with inr st' => st' | inl _ => st end
  | AddTrade t => match add_trade t st with inr st' => st' | inl _ => st end
  | Startup now => startup_event now st
  | Shutdown => shutdown_event st
  end.

Definition run (ops : list op) (st : gmap string pyobj) : gmap string pyobj :=
  foldl step st ops.

(** [gtrader_state["recent_decisions"]] when it is a list. *)
Definition recent_decisions (st : gmap string pyobj) : list pyobj :=
  match st !! "recent_decisions"%string with
  | Some (VList l) => l
  | _ => []
  end.

(** [gtrader_state[k]] *)
Definition getitem (st : gmap string pyobj) (k : string) : py_error + pyobj :=
  match st !! k with Some v => inr v | None => inl KeyError end.

(** [len(v)]: lists, strings and dicts have a length. *)
Definition py_len (v : pyobj) : py_error + Z :=
  match v with
  | VList l => inr (Z.of_nat (length l))
  | VStr s => inr (Z.of_nat (String.length s))
  | VDict d => inr (Z.of_nat (size d))
  | _ => inl TypeError
  end.

(** [get_account_info], the handler of [GET /account]: the dict it
    returns, its entries evaluated in the order of the source. *)
Definition get_account_info (st : gmap string pyobj) : py_error + gmap string pyobj :=
  match getitem st "account_value" with
  | inl e => inl e
  | inr account_value =>
      match getitem st "positions" with
      | inl e => inl e
      | inr positions =>
          match py_len positions with
          | inl e => inl e
          | inr total_positions =>
              match getitem st "status" with
              | inl e => inl e
              | inr status =>
                  match getitem st "last_update" with
                  | inl e => inl e
                  | inr last_update =>
                      inr (<[ "last_update"%string := last_update ]>
                             (<[ "status"%string := status ]>
                                (<[ "total_positions"%string := VInt total_positions ]>
                                   {[ "account_value"%string := account_value ]})))
                  end
              end
          end
      end
  end.

(** [get_decisions], the handler of [GET /decisions].  [str_upper] is
    Python's [str.upper] and [limit] has passed the bounds of its [Query]
    (1 to 100); a stored value that is not a list is treated as in
    [get_trade_history]. *)
Definition get_decisions (str_upper : string -> string)
    (limit : option nat) (asset : option string)
    (st : gmap string pyobj) : py_error + list pyobj :=
  let limit := Py.kwarg 20%nat limit in
  match st !! "recent_decisions"%string with
  | None => inl KeyError
  | Some (VList decisions) =>
      match (match Py.truthy asset with
             | Some asset => select "asset" (str_upper asset) decisions
             | None => inr decisions
             end) with
      | inl e => inl e
      | inr decisions => inr (take limit decisions)
      end
  | Some _ => inl TypeError
  end.

(** [gtrader_state["trade_history"]] when it is a list. *)
Definition trade_history (st : gmap string pyobj) : list pyobj :=
  match st !! "trade_history"%string with
  | Some (VList l) => l
  | _ => []
  end.

(** *** The proxy endpoints *)

(** [fastapi.HTTPException]; [detail] is [str(e)] in the source and is
    carried here as the exception [e] itself. *)
Record HTTPException := {
  http_status : Z;
  detail : myriad_client.exn
}.

Record MyriadQuoteRequest := {
  q_market_id : option Z;
  q_market_slug : option string;
  q_network_id : option Z;
  q_outcome_id : Z;
  q_action : string;
  q_value : option pyfloat;
  q_shares : option pyfloat;
  q_slippage : option pyfloat
}.

(** [try: ... except Exception as e: raise HTTPException(status_code, str(e))] *)
Definition or_http (status_code : Z) (m : myriad_client.M pyobj)
    : myriad_client.wire -> (HTTPException + pyobj) * myriad_client.wire :=
  fun w =>
    match m w with
    | (inl e, w') => (inl {| http_status := status_code; detail := e |}, w')
    | (inr v, w') => (inr v, w')
    end.

Section Proxy.

Variable upstream : nat -> myriad_client.request -> myriad_client.response.

(** [get_myriad_markets], the handler of [GET /myriad/markets] *)
Definition get_myriad_markets (network_id : option Z) (state keyword : option string)
    (page limit : option Z) (client : myriad_client.MyriadAPIClient) :=
  let page := Py.kwarg 1 page in
  let limit := Py.kwarg 20 limit in
  or_http 500
    (myriad_client.get_markets upstream client (Some page) (Some limit) None None
       network_id state None None keyword).

(** [get_myriad_market], the handler of [GET /myriad/markets/{market_id}] *)
Definition get_myriad_market (market_id network_id : Z)
    (client : myriad_client.MyriadAPIClient) :=
  or_http 500
    (myriad_client.get_market upstream client (Some market_id) None (Some network_id)).

(** [get_myriad_quote], the handler of [POST /myriad/quote] *)
Definition get_myriad_quote (request : MyriadQuoteRequest)
    (client : myriad_client.MyriadAPIClient) :=
  or_http 400
    (myriad_client.get_market_quote upstream client
       (q_outcome_id request) (q_action request)
       (q_market_id request) (q_market_slug request) (q_network_id request)
       (q_value request) (q_shares request)
       (Some (Py.kwarg (Finite 0.005) (q_slippage request)))).

(** [get_myriad_user_portfolio], the handler of
    [GET /myriad/user/{address}/portfolio] *)
Definition get_myriad_user_portfolio (address : string) (network_id : option Z)
    (page limit : option Z) (client : myriad_client.MyriadAPIClient) :=
  let page := Py.kwarg 1 page in
  let limit := Py.kwarg 20 limit in
  or_http 500
    (myriad_client.get_user_portfolio upstream client address (Some page) (Some limit)
       None None network_id None).

End Proxy.

End api.

(** ** Vocabulary of the statements *)

Module Spec.

Import myriad_client.

(** An addressing mode can be resolved: a non-empty slug, or both
    [market_id] and [network_id]. *)
Definition addressed (slug : option string) (market_id network_id : option Z) : bool :=
  match Py.truthy slug with
  | Some _ => true
  | None => bool_decide (is_Some market_id) && bool_decide (is_Some network_id)
  end.

(** An upstream that answers [n] times with status 503 and then with 200
    and the body [v]. *)
Definition flaky (n : nat) (v : pyobj) : nat -> request -> response :=
  fun i _ =>
    if (i <? n)%nat then {| status_code := 503; body := None |}
    else {| status_code := 200; body := Some v |}.

(** An upstream that always answers 200 with an empty JSON object. *)
Definition healthy : nat -> request -> response :=
  fun _ _ => {| status_code := 200; body := Some (VDict ∅) |}.

(** The client that [MyriadAPIClient()] builds when no key is configured. *)
Definition client : MyriadAPIClient := __init__ None None None None.

(** A call that leaves the key [recent_decisions] alone when it is an
    [update_state]. *)
Definition keeps_decisions (o : api.op) : Prop :=
  match o with
  | api.UpdateState state_data _ => state_data !! "recent_decisions"%string = None
  | _ => True
  end.

(** The [i]-th decision of a numbered series. *)
Definition decision_no (i : nat) : api.TradeDecision :=
  {| api.td_timestamp := pretty i; api.td_asset := "BTC"; api.td_action := "buy";
     api.td_conviction := "high"; api.td_signal_type := "momentum";
     api.td_reasoning := ""; api.td_position_size := None;
     api.td_entry_price := None; api.td_take_profit := None;
     api.td_stop_loss := None |}.

(** A trade of the given ticker and status. *)
Definition trade_of (asset status : string) : api.Trade :=
  {| api.tr_timestamp := "2024-01-01T00:00:00"; api.tr_asset := asset;
     api.tr_action := "buy"; api.tr_size := Finite 1; api.tr_price := Finite 1;
     api.tr_value := Finite 1; api.tr_status := status |}.

(** The stored dict [d] has the string [want] under the key [k]. *)
Definition field_is (k want : string) (d : gmap string pyobj) : bool :=
  api.eq_str (default VNone (d !! k)) want.

(** A call that leaves the two ingestion lists alone when it is an
    [update_state]. *)
Definition keeps_lists (o : api.op) : Prop :=
  match o with
  | api.UpdateState state_data _ =>
      state_data !! "recent_decisions"%string = None
      ∧ state_data !! "trade_history"%string = None
  | _ => True
  end.

(** Both ingestion lists are lists. *)
Definition lists_ok (st : gmap string pyobj) : Prop :=
  (∃ l, st !! "recent_decisions"%string = Some (VList l))
  ∧ (∃ l, st !! "trade_history"%string = Some (VList l)).

(** An upstream that knows nothing: every answer is a 404 without a JSON
    body. *)
Definition not_found : nat -> myriad_client.request -> myriad_client.response :=
  fun _ _ => {| myriad_client.status_code := 404; myriad_client.body := None |}.

End Spec.

(** * Properties *)

(** ** The transport layer *)

Section TransportFacts.

Import myriad_client.

Variable upstream : nat -> request -> response.

Lemma sent_app (w l : wire) : sent w (w ++ l) = l.
Proof. unfold sent. by rewrite drop_app_length. Qed.

Lemma sent_nil (w : wire) : sent w w = [].
Proof. unfold sent. by rewrite drop_all. Qed.

(** Every attempt of one call carries the same request, and there are at
    least one and at most [budget + 1] of them. *)
Lemma send_wire budget r req w :
  ∃ k, (1 ≤ k ≤ S budget)%nat ∧ (send upstream budget r req w).2 = w ++ replicate k req.
Proof.
  revert w. induction budget as [|b IH]; intros w; simpl.
  - exists 1%nat. split; [lia|]. by destruct (is_retry _ _ _).
  - destruct (is_retry _ _ _).
    + destruct (IH (w ++ [req])) as (k & Hk & ->).
      exists (S k). split; [lia|]. by rewrite <- app_assoc.
    + exists 1%nat. split; [lia|]. done.
Qed.

(** A JSON body can be encoded exactly when each of its values can. *)
Lemma json_encodable_body_spec (d : gmap string pyobj) :
  Py.json_encodable_body (Some d) = true
  ↔ ∀ k v, d !! k = Some v → Py.json_encodable v = true.
Proof.
  unfold Py.json_encodable_body. simpl.
  induction d as [|k v d Hk Hfold IH] using map_first_key_ind.
  - rewrite map_fold_empty. split; [intros _ k v; by rewrite lookup_empty | done].
  - rewrite map_fold_insert_first_key by done.
    rewrite andb_true_iff, IH. split.
    + intros [Hv Hd] k' v'. rewrite lookup_insert_Some.
      intros [[<- <-]|[_ H]]; eauto.
    + intros H. split.
      * apply (H k). by rewrite lookup_insert_eq.
      * intros k' v' Hl. apply (H k'). rewrite lookup_insert_ne; [done|].
        intros <-. congruence.
Qed.

Lemma make_request_wire self m e p j w :
  Py.json_encodable_body j = true →
  ∃ k, (1 ≤ k ≤ S (total (max_retries self)))%nat ∧
       (_make_request upstream self m e p j w).2 = w ++ replicate k (request_of self m e p j).
Proof.
  intros Hj. unfold _make_request, session_request.
  cbn [json request_of]. rewrite Hj.
  destruct (send_wire (total (max_retries self)) (max_retries self)
              (request_of self m e p j) w) as (k & Hk & Hw).
  exists k. split; [done|]. unfold request_of in *.
  destruct (send _ _ _ _ _) as [[e'|resp] w']; simpl in *; [done|].
  destruct (raise_for_status resp); [done|]. by destruct (body resp).
Qed.

(** A body that cannot be encoded is refused before anything is sent. *)
Lemma make_request_refused self m e p j w :
  Py.json_encodable_body j = false →
  _make_request upstream self m e p j w = (inl (RequestError InvalidJSONError), w).
Proof.
  intros Hj. unfold _make_request, session_request.
  cbn [json request_of]. by rewrite Hj.
Qed.

Lemma make_request_sent self m e p j w :
  ∃ k, (Py.json_encodable_body j = true → (1 ≤ k)%nat) ∧
       sent w (_make_request upstream self m e p j w).2 = replicate k (request_of self m e p j).
Proof.
  destruct (Py.json_encodable_body j) eqn:Hj.
  - destruct (make_request_wire self m e p j w Hj) as (k & Hk & ->).
    exists k. split; [lia|]. apply sent_app.
  - rewrite make_request_refused by done. exists 0%nat.
    split; [done|]. apply sent_nil.
Qed.

(** A request without JSON body is always sent. *)
Lemma make_request_sent_plain self m e p w :
  ∃ k, (1 ≤ k)%nat ∧
       sent w (_make_request upstream self m e p None w).2
       = replicate k (request_of self m e p None).
Proof.
  destruct (make_request_sent self m e p None w) as (k & Hk & E).
  exists k. split; [by apply Hk | exact E].
Qed.

Lemma make_request_no_ValueError self m e p j w msg :
  (_make_request upstream self m e p j w).1 ≠ inl (ValueError msg).
Proof.
  unfold _make_request.
  destruct (session_request _ _ _ _) as [[e'|resp] w']; simpl; [done|].
  destruct (raise_for_status resp); [done|]. by destruct (body resp).
Qed.


End TransportFacts.

Section RetryBudget.

Import myriad_client.

Variable upstream : nat -> request -> response.

Lemma send_again b r req w :
  is_retry r (method req) (status_code (upstream (length w) req)) = true →
  send upstream (S b) r req w = send upstream b r req (w ++ [req]).
Proof. intros H. simpl. by rewrite H. Qed.

Lemma send_exhausted r req w :
  is_retry r (method req) (status_code (upstream (length w) req)) = true →
  send upstream 0 r req w = (inl RetryError, w ++ [req]).
Proof. intros H. simpl. by rewrite H. Qed.

Lemma send_through b r req w :
  is_retry r (method req) (status_code (upstream (length w) req)) = false →
  send upstream b r req w = (inr (upstream (length w) req), w ++ [req]).
Proof. intros H. destruct b; simpl; by rewrite H. Qed.

Lemma is_retry_503 env_key key url t m :
  m ∈ ["GET"; "POST"]%string →
  is_retry (max_retries (__init__ env_key key url t)) m 503 = true.
Proof.
  intros Hm. unfold is_retry. simpl.
  rewrite (bool_decide_eq_true_2 _ Hm). done.
Qed.

Lemma is_retry_200 env_key key url t m :
  is_retry (max_retries (__init__ env_key key url t)) m 200 = false.
Proof. unfold is_retry. simpl. apply andb_false_r. Qed.

(** C8: with the client as [__init__] configures it, a GET or POST call
    (whose JSON body, if any, can be encoded, so that it is sent at all)
    that meets three 503 answers in a row and then a 200 returns the body
    of the 200, after four attempts; a call that meets four 503 answers in
    a row has spent its budget of three retries and raises [RetryError],
    the transient-upstream failure. *)
Theorem retry_budget_three_retries env_key key burl t m endpoint ps js w v :
  let self := __init__ env_key key burl t in
  let req := request_of self m endpoint ps js in
  m ∈ ["GET"; "POST"]%string →
  Py.json_encodable_body js = true →
  ((∀ i, (i < 3)%nat → status_code (upstream (length w + i) req) = 503) →
   upstream (length w + 3) req = {| status_code := 200; body := Some v |} →
   _make_request upstream self m endpoint ps js w = (inr v, w ++ replicate 4 req))
  ∧
  ((∀ i, (i < 4)%nat → status_code (upstream (length w + i) req) = 503) →
   _make_request upstream self m endpoint ps js w
   = (inl (RequestError RetryError), w ++ replicate 4 req)).
Proof.
  intros self req Hm Hjs.
  assert (Hlen1 : length (w ++ [req]) = (length w + 1)%nat) by (rewrite length_app; simpl; lia).
  assert (Hlen2 : length ((w ++ [req]) ++ [req]) = (length w + 2)%nat)
    by (rewrite !length_app; simpl; lia).
  assert (Hlen3 : length (((w ++ [req]) ++ [req]) ++ [req]) = (length w + 3)%nat)
    by (rewrite !length_app; simpl; lia).
  assert (Hw : (((w ++ [req]) ++ [req]) ++ [req]) ++ [req] = w ++ replicate 4 req)
    by (simpl; by rewrite <- !app_assoc).
  assert (H503 : ∀ n, status_code (upstream n req) = 503 →
            is_retry (max_retries self) (method req) (status_code (upstream n req)) = true).
  { intros n ->. apply is_retry_503, Hm. }
  split.
  - intros Hfail Hok.
    pose proof (Hfail 0%nat ltac:(lia)) as H0. rewrite Nat.add_0_r in H0.
    pose proof (Hfail 1%nat ltac:(lia)) as H1.
    pose proof (Hfail 2%nat ltac:(lia)) as H2.
    unfold _make_request, session_request. fold self. fold req.
    change (json req) with js. rewrite Hjs.
    change (total (max_retries self)) with 3%nat.
    rewrite send_again by (apply H503, H0).
    rewrite send_again by (rewrite Hlen1; apply H503, H1).
    rewrite send_again by (rewrite Hlen2; apply H503, H2).
    rewrite send_through
      by (rewrite Hlen3, Hok; apply is_retry_200).
    rewrite Hlen3, Hok, Hw. reflexivity.
  - intros Hfail.
    pose proof (Hfail 0%nat ltac:(lia)) as H0. rewrite Nat.add_0_r in H0.
    pose proof (Hfail 1%nat ltac:(lia)) as H1.
    pose proof (Hfail 2%nat ltac:(lia)) as H2.
    pose proof (Hfail 3%nat ltac:(lia)) as H3.
    unfold _make_request, session_request. fold self. fold req.
    change (json req) with js. rewrite Hjs.
    change (total (max_retries self)) with 3%nat.
    rewrite send_again by (apply H503, H0).
    rewrite send_again by (rewrite Hlen1; apply H503, H1).
    rewrite send_again by (rewrite Hlen2; apply H503, H2).
    rewrite send_exhausted by (rewrite Hlen3; apply H503, H3).
    rewrite Hw. reflexivity.
Qed.

End RetryBudget.

Lemma retry_budget_three_retries_witness :
  myriad_client._make_request (Spec.flaky 3 (VInt 7)) Spec.client "GET" "/markets" None None []
    = (inr (VInt 7),
       replicate 4 (myriad_client.request_of Spec.client "GET" "/markets" None None))
  ∧ myriad_client._make_request (Spec.flaky 4 (VInt 7)) Spec.client "GET" "/markets" None None []
    = (inl (myriad_client.RequestError myriad_client.RetryError),
       replicate 4 (myriad_client.request_of Spec.client "GET" "/markets" None None)).
Proof.
  split.
  - apply (proj1 (retry_budget_three_retries (Spec.flaky 3 (VInt 7))
             None None None None "GET" "/markets" None None [] (VInt 7)
             ltac:(repeat constructor) ltac:(reflexivity))).
    + intros i Hi. unfold Spec.flaky. simpl.
      destruct (Nat.ltb_spec i 3); [reflexivity | lia].
    + reflexivity.
  - apply (proj2 (retry_budget_three_retries (Spec.flaky 4 (VInt 7))
             None None None None "GET" "/markets" None None [] (VInt 7)
             ltac:(repeat constructor) ltac:(reflexivity))).
    intros i Hi. unfold Spec.flaky. simpl.
    destruct (Nat.ltb_spec i 4); [reflexivity | lia].
Defined.

(** ** The quote builder *)

(** What is on the wire after a call went through to [_make_request]: in
    the hypothesis that [req] is among the requests sent, [req] becomes the
    request the call built. *)
Ltac on_wire req :=
  match goal with
  | H' : req ∈ myriad_client.sent ?w (myriad_client._make_request ?u ?c ?m ?e ?p ?j ?w).2 |- _ =>
      let k := fresh "k" in let Hk := fresh "Hk" in let E := fresh "E" in
      destruct (make_request_sent u c m e p j w) as (k & Hk & E);
      rewrite E in H'; apply elem_of_replicate in H' as [H' _]
  end.

(** A body of scalars whose floats are finite can be encoded. *)
Ltac body_lookup Hl :=
  lazymatch type of Hl with
  | <[_ := _]> _ !! _ = Some _ =>
      apply lookup_insert_Some in Hl as [[<- <-]|[_ Hl]];
      [cbn [Py.json_encodable]; done | body_lookup Hl]
  | {[_ := _]} !! _ = Some _ =>
      apply lookup_singleton_Some in Hl as [<- <-]; cbn [Py.json_encodable]; done
  end.

Ltac body_encodable :=
  apply json_encodable_body_spec;
  let k := fresh "k" in let x := fresh "x" in let Hl := fresh "Hl" in
  intros k x Hl; body_lookup Hl.

Section QuoteBuilder.

#[local] Opaque myriad_client._make_request.

Import myriad_client.

Variable upstream : nat -> request -> response.
Variable self : MyriadAPIClient.

(** Case analysis on the addressing arguments of a call whose definition
    has been unfolded. *)
Ltac addressing slug mid nid :=
  unfold Spec.addressed in *;
  destruct (Py.truthy slug) eqn:?; [| destruct mid, nid];
  simpl in *; try done.

(** C1: a buy quote without [value] raises [ValueError] and leaves the
    wire as it was, whatever [shares] and the other arguments are; once an
    addressing mode is resolved the message is the one of the buy branch. *)
Theorem buy_without_value_rejected
    outcome_id market_id market_slug network_id shares slippage w :
  ∃ msg,
    get_market_quote upstream self outcome_id "buy"
      market_id market_slug network_id None shares slippage w
    = (inl (ValueError msg), w)
    ∧ (Spec.addressed market_slug market_id network_id = true →
       msg = "For buy action, 'value' is required"%string).
Proof.
  unfold get_market_quote, bind, ret, raise.
  addressing market_slug market_id network_id; eexists; (split; [reflexivity | done]).
Qed.

(** C2: a sell quote with neither [value] nor [shares] raises
    [ValueError] and leaves the wire as it was; once an addressing mode is
    resolved the message is the one of the sell branch. *)
Theorem sell_without_value_and_shares_rejected
    outcome_id market_id market_slug network_id slippage w :
  ∃ msg,
    get_market_quote upstream self outcome_id "sell"
      market_id market_slug network_id None None slippage w
    = (inl (ValueError msg), w)
    ∧ (Spec.addressed market_slug market_id network_id = true →
       msg = "For sell action, either 'value' or 'shares' is required"%string).
Proof.
  unfold get_market_quote, bind, ret, raise.
  addressing market_slug market_id network_id; eexists; (split; [reflexivity | done]).
Qed.


Lemma went_through m e p j w :
  Py.json_encodable_body j = true →
  sent w (_make_request upstream self m e p j w).2 ≠ [].
Proof.
  intros Hj.
  destruct (make_request_sent upstream self m e p j w) as (k & Hk & ->).
  specialize (Hk Hj). destruct k; [lia | done].
Qed.

(** C3: on a sell quote that carries both [value] and [shares], every
    request put on the wire is a POST whose JSON body has the key
    [value], holding the value supplied, and has no key [shares]; and
    such a request is sent as soon as an addressing mode is resolved, the
    value and the slippage being finite numbers. *)
Theorem sell_value_wins_over_shares
    outcome_id market_id market_slug network_id v s slippage w :
  (Spec.addressed market_slug market_id network_id = true →
   Py.isfinite v = true →
   Py.isfinite (Py.kwarg (Finite 0.005) slippage) = true →
   sent w (get_market_quote upstream self outcome_id "sell"
             market_id market_slug network_id (Some v) (Some s) slippage w).2 ≠ [])
  ∧
  (∀ req,
     req ∈ sent w (get_market_quote upstream self outcome_id "sell"
                     market_id market_slug network_id (Some v) (Some s) slippage w).2 →
     method req = "POST"%string ∧
     ∃ b, json req = Some b ∧ b !! "value"%string = Some (VFloat v)
                            ∧ b !! "shares"%string = None).
Proof.
  unfold get_market_quote, bind, ret, raise. split.
  - unfold Spec.addressed.
    destruct (Py.truthy market_slug); [| destruct market_id, network_id];
      cbn [bool_decide andb]; try done; intros _ Hv Hs;
      apply went_through; body_encodable.
  - intros req Hreq.
    addressing market_slug market_id network_id;
      try (rewrite sent_nil in Hreq; by apply elem_of_nil in Hreq);
      on_wire req; subst req; simpl;
      (split; [done|]); eexists; (split; [done|]); by simplify_map_eq.
Qed.

(** C4: the addressing mode is resolved first.  Without a usable slug and
    without the full pair [(market_id, network_id)] the call raises the
    addressing [ValueError], whatever the action, [value] and [shares]
    are; with an addressing mode resolved, an action other than "buy" and
    "sell" raises the action [ValueError]; and the action error is raised
    only in that situation.  The wire is untouched in all these cases. *)
Theorem addressing_checked_before_action
    outcome_id action market_id market_slug network_id value shares slippage w :
  (Py.truthy market_slug = None → market_id = None ∨ network_id = None →
   get_market_quote upstream self outcome_id action
     market_id market_slug network_id value shares slippage w
   = (inl (ValueError "Must provide either market_slug or (market_id + network_id)"), w))
  ∧
  (Spec.addressed market_slug market_id network_id = true →
   action ≠ "buy"%string → action ≠ "sell"%string →
   get_market_quote upstream self outcome_id action
     market_id market_slug network_id value shares slippage w
   = (inl (ValueError "Action must be 'buy' or 'sell'"), w))
  ∧
  (∀ w',
     get_market_quote upstream self outcome_id action
       market_id market_slug network_id value shares slippage w
     = (inl (ValueError "Action must be 'buy' or 'sell'"), w') →
     Spec.addressed market_slug market_id network_id = true
     ∧ action ≠ "buy"%string ∧ action ≠ "sell"%string ∧ w' = w).
Proof.
  unfold get_market_quote, bind, ret, raise. split; [|split].
  - intros Hslug Hpair. rewrite Hslug.
    destruct Hpair as [-> | ->]; [done | by destruct market_id].
  - intros Haddr Hbuy Hsell.
    apply String.eqb_neq in Hbuy, Hsell.
    addressing market_slug market_id network_id; by rewrite Hbuy, Hsell.
  - intros w'.
    addressing market_slug market_id network_id;
      destruct (String.eqb_spec action "buy") as [Hbuy|Hbuy];
      destruct (String.eqb_spec action "sell") as [Hsell|Hsell];
      destruct value; try destruct shares; simpl; intros Hout;
      try (exfalso; eapply make_request_no_ValueError; by rewrite Hout);
      try done; by inversion Hout.
Qed.

Lemma not_encodable (d : gmap string pyobj) k f :
  d !! k = Some (VFloat f) → Py.isfinite f = false →
  Py.json_encodable_body (Some d) = false.
Proof.
  intros Hk Hf. destruct (Py.json_encodable_body (Some d)) eqn:E; [|done].
  pose proof (proj1 (json_encodable_body_spec d) E k _ Hk) as H.
  simpl in H. congruence.
Qed.

(** C10, as the code has it: a quote request that passes validation has
    its slippage forwarded without any range check.  Whether it passes
    does not depend on the slippage at all; every request put on the wire
    has a JSON body holding [outcome_id], [action] and [slippage], the
    latter being the caller's number as it came (0.005 when left out); the
    request is put on the wire when the numbers of the body are finite, a
    negative slippage or one above 1 like any other; and with a slippage
    that is an infinity or [nan] the body cannot be encoded, the call
    raises [InvalidJSONError] and nothing is sent. *)
Theorem slippage_forwarded_unchecked
    outcome_id action market_id market_slug network_id value shares slippage w :
  (∀ msg, (get_market_quote upstream self outcome_id action
             market_id market_slug network_id value shares slippage w).1
          ≠ inl (ValueError msg)) →
  (Py.isfinite (Py.kwarg (Finite 0.005) slippage) = true →
   (∀ v, value = Some v → Py.isfinite v = true) →
   (∀ s, shares = Some s → Py.isfinite s = true) →
   sent w (get_market_quote upstream self outcome_id action
             market_id market_slug network_id value shares slippage w).2 ≠ [])
  ∧
  (∀ req,
     req ∈ sent w (get_market_quote upstream self outcome_id action
                     market_id market_slug network_id value shares slippage w).2 →
     ∃ b, json req = Some b
          ∧ b !! "outcome_id"%string = Some (VInt outcome_id)
          ∧ b !! "action"%string = Some (VStr action)
          ∧ b !! "slippage"%string = Some (VFloat (Py.kwarg (Finite 0.005) slippage)))
  ∧
  (∀ slippage' msg,
     (get_market_quote upstream self outcome_id action
        market_id market_slug network_id value shares slippage' w).1
     ≠ inl (ValueError msg))
  ∧
  (Py.isfinite (Py.kwarg (Finite 0.005) slippage) = false →
   get_market_quote upstream self outcome_id action
     market_id market_slug network_id value shares slippage w
   = (inl (RequestError InvalidJSONError), w)).
Proof.
  unfold get_market_quote, bind, ret, raise. intros Hvalid.
  addressing market_slug market_id network_id;
    try (by exfalso; eapply Hvalid);
    (destruct (String.eqb action "buy");
     [| destruct (String.eqb action "sell")];
     destruct value; try destruct shares; simpl in *;
     try (by exfalso; eapply Hvalid));
    (split;
     [intros Hs Hv Hsh;
      try (specialize (Hv _ eq_refl)); try (specialize (Hsh _ eq_refl));
      apply went_through; body_encodable |]);
    (split;
     [intros req Hreq; on_wire req; subst req; simpl;
      eexists; (split; [done|]); by simplify_map_eq |]);
    (split; [intros; apply make_request_no_ValueError |]);
    intros Hs; apply make_request_refused;
    (eapply (not_encodable _ "slippage"); [by simplify_map_eq | exact Hs]).
Qed.

End QuoteBuilder.

Lemma buy_without_value_rejected_witness :
  myriad_client.get_market_quote Spec.healthy Spec.client 0 "buy"
    None (Some "foo"%string) None None (Some (Finite 3)) None []
  = (inl (myriad_client.ValueError "For buy action, 'value' is required"), []).
Proof.
  destruct (buy_without_value_rejected Spec.healthy Spec.client
              0 None (Some "foo"%string) None (Some (Finite 3)) None [])
    as (msg & -> & Hmsg).
  by rewrite (Hmsg eq_refl).
Defined.

Lemma sell_without_value_and_shares_rejected_witness :
  myriad_client.get_market_quote Spec.healthy Spec.client 0 "sell"
    (Some 5) None (Some 2741) None None None []
  = (inl (myriad_client.ValueError
            "For sell action, either 'value' or 'shares' is required"), []).
Proof.
  destruct (sell_without_value_and_shares_rejected Spec.healthy Spec.client
              0 (Some 5) None (Some 2741) None [])
    as (msg & -> & Hmsg).
  by rewrite (Hmsg eq_refl).
Defined.

Lemma sell_value_wins_over_shares_witness :
  ∃ req,
    myriad_client.sent []
      (myriad_client.get_market_quote Spec.healthy Spec.client 0 "sell"
         None (Some "foo"%string) None (Some (Finite 10)) (Some (Finite 3)) None []).2 = [req]
    ∧ myriad_client.method req = "POST"%string
    ∧ ∃ b, myriad_client.json req = Some b
           ∧ b !! "value"%string = Some (VFloat (Finite 10)) ∧ b !! "shares"%string = None.
Proof.
  eexists. split; [vm_compute; reflexivity |].
  apply (proj2 (sell_value_wins_over_shares Spec.healthy Spec.client
                  0 None (Some "foo"%string) None (Finite 10) (Finite 3) None [])).
  vm_compute. constructor.
Defined.

Lemma addressing_checked_before_action_witness :
  myriad_client.get_market_quote Spec.healthy Spec.client 0 "hold"
    (Some 5) None None None None None []
  = (inl (myriad_client.ValueError
            "Must provide either market_slug or (market_id + network_id)"), [])
  ∧ myriad_client.get_market_quote Spec.healthy Spec.client 0 "hold"
      None (Some "foo"%string) None (Some (Finite 1)) None None []
    = (inl (myriad_client.ValueError "Action must be 'buy' or 'sell'"), []).
Proof.
  split.
  - apply (proj1 (addressing_checked_before_action Spec.healthy Spec.client
                    0 "hold" (Some 5) None None None None None []));
      [reflexivity | by right].
  - apply (proj1 (proj2 (addressing_checked_before_action Spec.healthy Spec.client
                    0 "hold" None (Some "foo"%string) None (Some (Finite 1)) None None [])));
      [reflexivity | discriminate | discriminate].
Defined.

Lemma slippage_forwarded_unchecked_witness :
  (∃ req b,
     myriad_client.sent []
       (myriad_client.get_market_quote Spec.healthy Spec.client 0 "buy"
          None (Some "foo"%string) None (Some (Finite 100)) None (Some (Finite (-1))) []).2 = [req]
     ∧ myriad_client.json req = Some b
     ∧ b !! "slippage"%string = Some (VFloat (Finite (-1))))
  ∧
  (∃ req b,
     myriad_client.sent []
       (myriad_client.get_market_quote Spec.healthy Spec.client 0 "sell"
          (Some 5) None (Some 56) None (Some (Finite 4)) (Some (Finite 2)) []).2 = [req]
     ∧ myriad_client.json req = Some b
     ∧ b !! "slippage"%string = Some (VFloat (Finite 2))).
Proof.
  split.
  - destruct (slippage_forwarded_unchecked Spec.healthy Spec.client 0 "buy"
                None (Some "foo"%string) None (Some (Finite 100)) None (Some (Finite (-1))) [])
      as (_ & Hbody & _); [intros msg; vm_compute; discriminate |].
    eexists. destruct (Hbody _ ltac:(vm_compute; constructor)) as (b & Hj & _ & _ & Hs).
    exists b. split; [vm_compute; reflexivity |]. split; [exact Hj | exact Hs].
  - destruct (slippage_forwarded_unchecked Spec.healthy Spec.client 0 "sell"
                (Some 5) None (Some 56) None (Some (Finite 4)) (Some (Finite 2)) [])
      as (_ & Hbody & _); [intros msg; vm_compute; discriminate |].
    eexists. destruct (Hbody _ ltac:(vm_compute; constructor)) as (b & Hj & _ & _ & Hs).
    exists b. split; [vm_compute; reflexivity |]. split; [exact Hj | exact Hs].
Defined.

(** C10 as it is worded fails at a slippage that is no finite number: with
    [slippage = inf], which is above 1, a buy quote passes the checks of
    [get_market_quote], but the body cannot be encoded as JSON, the call
    raises [InvalidJSONError] and nothing is transmitted. *)
Lemma infinite_slippage_is_not_transmitted :
  myriad_client.get_market_quote Spec.healthy Spec.client 0 "buy"
    None (Some "foo"%string) None (Some (Finite 100)) None (Some PosInf) []
  = (inl (myriad_client.RequestError myriad_client.InvalidJSONError), [])
  ∧ myriad_client.sent []
      (myriad_client.get_market_quote Spec.healthy Spec.client 0 "buy"
         None (Some "foo"%string) None (Some (Finite 100)) None (Some PosInf) []).2
    = [].
Proof. split; vm_compute; reflexivity. Qed.

(** ** Market addressing *)

Section Addressing.

#[local] Opaque myriad_client._make_request.

Import myriad_client.

Variable upstream : nat -> request -> response.
Variable self : MyriadAPIClient.

Lemma set_opt_lookup_eq k v (d : gmap string pyobj) :
  d !! k = None → set_opt k v d !! k = VInt <$> v.
Proof. intros H. destruct v; simpl; [by rewrite lookup_insert_eq | done]. Qed.

Lemma set_opt_lookup_ne k k' v (d : gmap string pyobj) :
  k ≠ k' → set_opt k v d !! k' = d !! k'.
Proof. intros H. destruct v; simpl; [by rewrite lookup_insert_ne | done]. Qed.




End Addressing.


(** A remark on [get_market_events]: called with the slug "foo" and the
    pair (5, 2741), it sends one request, addressed by the slug, whose
    query parameters hold [network_id = 2741]; so it is not the request of
    the call with the slug alone. *)
Lemma slug_with_pair_still_sends_network_id :
  (∃ req p,
     myriad_client.sent []
       (myriad_client.get_market_events Spec.healthy Spec.client
          (Some 5) (Some "foo"%string) (Some 2741) None None None None []).2 = [req]
     ∧ myriad_client.params req = Some p
     ∧ p !! "network_id"%string = Some (VInt 2741))
  ∧ myriad_client.get_market_events Spec.healthy Spec.client
      (Some 5) (Some "foo"%string) (Some 2741) None None None None []
    ≠ myriad_client.get_market_events Spec.healthy Spec.client
        None (Some "foo"%string) None None None None None [].
Proof.
  split.
  - eexists. eexists. split; [vm_compute; reflexivity |].
    split; [reflexivity | vm_compute; reflexivity].
  - intros H.
    apply (f_equal (fun out : (myriad_client.exn + pyobj) * myriad_client.wire =>
             match out.2 with
             | req :: _ =>
                 match myriad_client.params req with
                 | Some p => p !! "network_id"%string
                 | None => None
                 end
             | [] => None
             end)) in H.
    vm_compute in H. discriminate H.
Qed.

(** C6 does not hold of the code: [get_market] refuses a [market_id] that
    comes without [network_id], as the docstrings require, but
    [get_market_events] and [get_market_holders] take it: each sends its
    request, addressed by the id and without any [network_id], instead of
    raising [ValueError]. *)
Theorem events_and_holders_accept_market_id_alone :
  myriad_client.get_market Spec.healthy Spec.client (Some 5) None None []
  = (inl (myriad_client.ValueError
            "Must provide either slug or (market_id + network_id)"), [])
  ∧ myriad_client.get_market_events Spec.healthy Spec.client
      (Some 5) None None None None None None []
    = (inr (VDict ∅),
       [ myriad_client.request_of Spec.client "GET" "/markets/5/events"
           (Some (<[ "limit"%string := VInt 50 ]> {[ "page"%string := VInt 1 ]})) None ])
  ∧ myriad_client.get_market_holders Spec.healthy Spec.client
      (Some 5) None None None None []
    = (inr (VDict ∅),
       [ myriad_client.request_of Spec.client "GET" "/markets/5/holders"
           (Some (<[ "limit"%string := VInt 50 ]> {[ "page"%string := VInt 1 ]})) None ]).
Proof. split; [reflexivity | split; vm_compute; reflexivity]. Qed.

(** ** The recent-decisions list *)

Section RecentDecisions.

Import api.

Lemma take_app_take {A} (n m : nat) (a b : list A) :
  (n ≤ m)%nat → take n (a ++ take m b) = take n (a ++ b).
Proof.
  revert n. induction a as [|x a IH]; intros n Hn; simpl.
  - rewrite take_take. f_equal. lia.
  - destruct n as [|n]; [done|]. simpl. f_equal. apply IH. lia.
Qed.

Lemma recent_decisions_insert l (st : gmap string pyobj) :
  recent_decisions (<[ "recent_decisions"%string := VList l ]> st) = l.
Proof. unfold recent_decisions. by rewrite lookup_insert_eq. Qed.

Lemma recent_decisions_insert_ne k v (st : gmap string pyobj) :
  k ≠ "recent_decisions"%string →
  recent_decisions (<[ k := v ]> st) = recent_decisions st.
Proof. intros H. unfold recent_decisions. by rewrite lookup_insert_ne. Qed.

Lemma add_decision_recent d st st' :
  add_decision d st = inr st' →
  recent_decisions st' = take 100 (TradeDecision_dict d :: recent_decisions st).
Proof.
  unfold add_decision, recent_decisions.
  destruct (st !! "recent_decisions"%string) as [[]|]; try done.
  intros [= <-]. by rewrite lookup_insert_eq.
Qed.

Lemma add_decision_total d (st : gmap string pyobj) l :
  st !! "recent_decisions"%string = Some (VList l) →
  add_decision d st
  = inr (<[ "recent_decisions"%string := VList (take 100 (TradeDecision_dict d :: l)) ]> st).
Proof. intros H. unfold add_decision. by rewrite H. Qed.

(** Every call other than an [update_state] that carries the key keeps the
    list within 100 entries. *)
Lemma step_bounded st o :
  Spec.keeps_decisions o →
  (length (recent_decisions st) ≤ 100)%nat →
  (length (recent_decisions (step st o)) ≤ 100)%nat.
Proof.
  intros Hk Hst. destruct o as [data now|d|t|now|]; simpl in *.
  - unfold update_state. rewrite recent_decisions_insert_ne by done.
    unfold recent_decisions in *. by rewrite lookup_union_r.
  - destruct (add_decision d st) as [e|st'] eqn:E; [done|].
    rewrite (add_decision_recent _ _ _ E), length_take. lia.
  - unfold add_trade.
    destruct (st !! "trade_history"%string) as [[]|]; try done.
    by rewrite recent_decisions_insert_ne.
  - unfold startup_event. by rewrite !recent_decisions_insert_ne.
  - unfold shutdown_event. by rewrite recent_decisions_insert_ne.
Qed.

Lemma run_bounded ops st :
  Forall Spec.keeps_decisions ops →
  (length (recent_decisions st) ≤ 100)%nat →
  (length (recent_decisions (run ops st)) ≤ 100)%nat.
Proof.
  intros Hops. revert st. induction Hops as [|o ops Ho _ IH]; intros st Hst; [done|].
  apply IH. by apply step_bounded.
Qed.

(** Ingesting a series of decisions, oldest first, leaves the 100 newest,
    newest first. *)
Lemma run_add_decisions ds (st : gmap string pyobj) l :
  st !! "recent_decisions"%string = Some (VList l) → (length l ≤ 100)%nat →
  recent_decisions (run (AddDecision <$> ds) st)
  = take 100 (reverse (TradeDecision_dict <$> ds) ++ l).
Proof.
  revert st l. induction ds as [|d ds IH]; intros st l Hst Hl; simpl.
  - unfold recent_decisions. rewrite Hst. by rewrite take_ge.
  - rewrite (add_decision_total d st l Hst).
    rewrite (IH _ (take 100 (TradeDecision_dict d :: l)));
      [| by rewrite lookup_insert_eq | rewrite length_take; lia].
    rewrite take_app_take by done.
    by rewrite reverse_cons, <- app_assoc.
Qed.

Lemma initial_lookup : gtrader_state !! "recent_decisions"%string = Some (VList []).
Proof. vm_compute. reflexivity. Qed.

Lemma initial_decisions : recent_decisions gtrader_state = [].
Proof. unfold recent_decisions. by rewrite initial_lookup. Qed.

End RecentDecisions.

(** C7 as it is worded fails: [update_state] stores whatever list its
    payload holds under [recent_decisions], here one of 101 entries. *)
Lemma update_state_can_exceed_100 :
  (100 <
   length (api.recent_decisions
             (api.run
                [ api.UpdateState
                    {[ "recent_decisions"%string :=
                         VList (replicate 101 (api.TradeDecision_dict (Spec.decision_no 0))) ]}
                    "2024-01-01T00:00:00" ]
                api.gtrader_state)))%nat.
Proof.
  apply Nat.ltb_lt. vm_compute. reflexivity.
Qed.

(** C7, as the code has it: whatever the list was, a successful
    [add_decision] leaves the new decision at index 0 and at most 100
    entries; the list stays within 100 entries along every sequence of
    calls in which no [update_state] carries the key [recent_decisions];
    and 105 decisions ingested into the initial state leave exactly the 100
    newest, newest first. *)
Theorem recent_decisions_bounded :
  (∀ d st st',
     api.add_decision d st = inr st' →
     api.recent_decisions st' !! 0%nat = Some (api.TradeDecision_dict d)
     ∧ api.recent_decisions st'
       = take 100 (api.TradeDecision_dict d :: api.recent_decisions st)
     ∧ (length (api.recent_decisions st') ≤ 100)%nat)
  ∧
  (∀ ops,
     Forall Spec.keeps_decisions ops →
     (length (api.recent_decisions (api.run ops api.gtrader_state)) ≤ 100)%nat)
  ∧
  (∀ ds,
     length ds = 105%nat →
     api.recent_decisions (api.run (api.AddDecision <$> ds) api.gtrader_state)
     = reverse (api.TradeDecision_dict <$> drop 5 ds)
     ∧ length (api.recent_decisions
                 (api.run (api.AddDecision <$> ds) api.gtrader_state)) = 100%nat).
Proof.
  split; [|split].
  - intros d st st' H. rewrite (add_decision_recent _ _ _ H).
    split; [done|]. split; [done|]. rewrite length_take. apply Nat.le_min_l.
  - intros ops Hops. apply run_bounded; [done|].
    rewrite initial_decisions. simpl. lia.
  - intros ds Hds.
    assert (E : api.recent_decisions
                  (api.run (api.AddDecision <$> ds) api.gtrader_state)
                = reverse (api.TradeDecision_dict <$> drop 5 ds)).
    { rewrite (run_add_decisions ds api.gtrader_state [])
        by (exact initial_lookup || simpl; lia).
      rewrite app_nil_r, take_reverse, length_fmap, Hds, fmap_drop. done. }
    rewrite E. split; [done|].
    rewrite length_reverse, length_fmap, length_drop. lia.
Qed.

Lemma recent_decisions_bounded_witness :
  (api.add_decision (Spec.decision_no 0) api.gtrader_state
   = inr (<[ "recent_decisions"%string :=
               VList (take 100 [api.TradeDecision_dict (Spec.decision_no 0)]) ]>
            api.gtrader_state)
   ∧ api.recent_decisions
       (<[ "recent_decisions"%string :=
             VList (take 100 [api.TradeDecision_dict (Spec.decision_no 0)]) ]>
          api.gtrader_state) !! 0%nat
     = Some (api.TradeDecision_dict (Spec.decision_no 0)))
  ∧ (length (api.recent_decisions
               (api.run [ api.AddTrade (Spec.trade_of "BTC" "filled");
                          api.AddDecision (Spec.decision_no 0);
                          api.UpdateState {[ "status"%string := VStr "idle" ]} "now";
                          api.Shutdown ]
                  api.gtrader_state)) ≤ 100)%nat
  ∧ api.recent_decisions
      (api.run (api.AddDecision <$> (Spec.decision_no <$> seq 0 105)) api.gtrader_state)
    = reverse (api.TradeDecision_dict <$> (Spec.decision_no <$> seq 5 100)).
Proof.
  destruct recent_decisions_bounded as (Hadd & Hrun & Hingest).
  split; [|split].
  - split; [exact (add_decision_total _ _ [] initial_lookup) |].
    apply (Hadd (Spec.decision_no 0) api.gtrader_state).
    exact (add_decision_total _ _ [] initial_lookup).
  - apply Hrun.
    apply List.Forall_cons; [exact I |].
    apply List.Forall_cons; [exact I |].
    apply List.Forall_cons; [by apply lookup_singleton_ne |].
    apply List.Forall_cons; [exact I | apply List.Forall_nil].
  - destruct (Hingest (Spec.decision_no <$> seq 0 105)) as [E _];
      [vm_compute; reflexivity | exact E].
Defined.

(** ** The trade history filter *)

Section TradeHistory.

Import api.

Lemma field_is_true k want (d : gmap string pyobj) :
  Spec.field_is k want d = true ↔ d !! k = Some (VStr want).
Proof.
  unfold Spec.field_is, eq_str.
  destruct (d !! k) as [[]|]; simpl; try (split; [done | by intros [=]]).
  rewrite String.eqb_eq. split; [by intros -> | by intros [= ->]].
Qed.

(** On a history of dicts the comprehension is a plain filter. *)
Lemma select_dicts k want (ts : list (gmap string pyobj)) :
  select k want (VDict <$> ts) = inr (VDict <$> List.filter (Spec.field_is k want) ts).
Proof.
  induction ts as [|t ts IH]; [done|].
  rewrite fmap_cons. simpl select. rewrite IH.
  unfold Spec.field_is. simpl. by destruct (eq_str _ _).
Qed.

(** Whatever the history holds, what the comprehension keeps is a stored
    dict with [want] under [k]. *)
Lemma select_sound k want l r :
  select k want l = inr r →
  ∀ t, t ∈ r → t ∈ l ∧ ∃ d, t = VDict d ∧ d !! k = Some (VStr want).
Proof.
  revert r. induction l as [|x l IH]; simpl; intros r.
  - intros [= <-] t Ht. by apply elem_of_nil in Ht.
  - destruct x as [| | | | | |d]; simpl; try done.
    destruct (select k want l) as [e|r'] eqn:E; [done|].
    destruct (eq_str (default VNone (d !! k)) want) eqn:Hd; intros [= <-] t Ht.
    + apply elem_of_cons in Ht as [-> | Ht].
      * split; [left|]. exists d. split; [done|]. by apply field_is_true.
      * destruct (IH r' eq_refl t Ht) as [Hin Hd']. split; [by right | done].
    + destruct (IH r' eq_refl t Ht) as [Hin Hd']. split; [by right | done].
Qed.

Lemma filter_filter_andb {A} (f g : A → bool) (l : list A) :
  List.filter g (List.filter f l) = List.filter (λ x, f x && g x) l.
Proof.
  induction l as [|x l IH]; simpl; [done|].
  destruct (f x); simpl; [destruct (g x); by rewrite IH | done].
Qed.

Lemma truthy_Some s a : Py.truthy s = Some a → s = Some a.
Proof. destruct s as [[]|]; simpl; by intros [= <-]. Qed.

(** C9, as the code has it, [str_upper] being Python's [str.upper]: with
    both filters given, [GET /trades] answers with the first [limit] stored
    trades whose [asset] is exactly the upper-cased query and whose
    [status] is exactly the status asked for, in stored order; two queries
    with the same upper-case form get the same answer; and on any state
    every entry of an answer is a stored dict with that [asset] and that
    [status].  The stored ticker itself is never case-folded. *)
Theorem trades_filtered_by_uppercased_asset
    (str_upper : string → string) limit asset status a s (st : gmap string pyobj) :
  Py.truthy asset = Some a → Py.truthy status = Some s →
  (∀ ts : list (gmap string pyobj),
     st !! "trade_history"%string = Some (VList (VDict <$> ts)) →
     get_trade_history str_upper limit asset status st
     = inr (VDict <$>
              take (Py.kwarg 50%nat limit)
                (List.filter
                   (λ t, Spec.field_is "asset" (str_upper a) t
                         && Spec.field_is "status" s t)
                   ts)))
  ∧
  (∀ a', Py.truthy (Some a') = Some a' → str_upper a' = str_upper a →
         get_trade_history str_upper limit (Some a') status st
         = get_trade_history str_upper limit asset status st)
  ∧
  (∀ r t, get_trade_history str_upper limit asset status st = inr r → t ∈ r →
          ∃ d, t = VDict d
               ∧ d !! "asset"%string = Some (VStr (str_upper a))
               ∧ d !! "status"%string = Some (VStr s)
               ∧ ∃ trades, st !! "trade_history"%string = Some (VList trades)
                           ∧ t ∈ trades).
Proof.
  intros Ha Hs. split; [|split].
  - intros ts Hst. unfold get_trade_history. rewrite Hst, Ha, Hs.
    rewrite select_dicts, select_dicts, filter_filter_andb.
    by rewrite fmap_take.
  - intros a' Ha' Hup.
    unfold get_trade_history. rewrite Ha', Ha, Hup. done.
  - intros r t. unfold get_trade_history. rewrite Ha, Hs.
    destruct (st !! "trade_history"%string) as [[| | | | |trades|]|]; try done.
    destruct (select "asset" (str_upper a) trades) as [e|r1] eqn:E1; [done|].
    destruct (select "status" s r1) as [e|r2] eqn:E2; [done|].
    intros [= <-] Ht. apply elem_of_take in Ht as (i & Ht & _).
    apply list_elem_of_lookup_2 in Ht.
    destruct (select_sound _ _ _ _ E2 t Ht) as (Ht1 & d & -> & Hstatus).
    destruct (select_sound _ _ _ _ E1 _ Ht1) as (Ht0 & d' & [= <-] & Hasset).
    exists d. repeat (split; [done|]). by exists trades.
Qed.

End TradeHistory.

Lemma trades_filtered_by_uppercased_asset_witness :
  api.get_trade_history Py.ascii_upper None (Some "btc"%string) (Some "filled"%string)
    (api.run [ api.AddTrade (Spec.trade_of "BTC" "filled");
               api.AddTrade (Spec.trade_of "BTC" "cancelled");
               api.AddTrade (Spec.trade_of "ETH" "filled") ]
       api.gtrader_state)
  = inr [ api.Trade_dict (Spec.trade_of "BTC" "filled") ].
Proof.
  etransitivity.
  - apply (proj1 (trades_filtered_by_uppercased_asset Py.ascii_upper
                    None (Some "btc"%string) (Some "filled"%string) "btc" "filled" _
                    ltac:(reflexivity) ltac:(reflexivity))
             [ api.Trade_fields (Spec.trade_of "ETH" "filled");
               api.Trade_fields (Spec.trade_of "BTC" "cancelled");
               api.Trade_fields (Spec.trade_of "BTC" "filled") ]).
    vm_compute. reflexivity.
  - vm_compute. reflexivity.
Defined.

(** C9 as it is worded fails, on ASCII tickers, where [str.upper] is the
    upper-casing of the letters a to z: a trade stored with the ticker
    "btc" and the status "filled" is not returned for
    [asset=BTC&status=filled], although the two tickers differ in letter
    case only and the status filter alone returns it. *)
Lemma uppercase_query_misses_lowercase_ticker :
  api.get_trade_history Py.ascii_upper None (Some "BTC"%string) (Some "filled"%string)
    (api.run [ api.AddTrade (Spec.trade_of "btc" "filled") ] api.gtrader_state)
  = inr []
  ∧ api.get_trade_history Py.ascii_upper None None (Some "filled"%string)
      (api.run [ api.AddTrade (Spec.trade_of "btc" "filled") ] api.gtrader_state)
    = inr [ api.Trade_dict (Spec.trade_of "btc" "filled") ]
  ∧ Py.ascii_upper "btc" = Py.ascii_upper "BTC".
Proof. repeat split; vm_compute; reflexivity. Qed.

(** * Further properties of the client *)

(** ** Construction: base URL and API key *)

Section Construction.

Import myriad_client.

Variable upstream : nat -> request -> response.

Lemma rstrip_slash_snoc (b : string) :
  Py.rstrip_slash (b +:+ "/") = Py.rstrip_slash b.
Proof.
  induction b as [|c b IH]; [reflexivity|].
  change (String c b +:+ "/")%string with (String c (b +:+ "/")).
  simpl. by rewrite IH.
Qed.

Lemma lstrip_slash_cons (e : string) :
  Py.lstrip_slash ("/" +:+ e) = Py.lstrip_slash e.
Proof. reflexivity. Qed.

(** X1: a trailing slash on the configured base URL and a leading slash on
    the endpoint do not change the URL that is requested. *)
Theorem url_slashes_normalised env_key key b t m e ps js :
  url (request_of (__init__ env_key key (Some (b +:+ "/")%string) t) m ("/" +:+ e) ps js)
  = url (request_of (__init__ env_key key (Some b) t) m e ps js).
Proof.
  unfold request_of, __init__. cbn [url base_url Py.kwarg].
  by rewrite rstrip_slash_snoc, lstrip_slash_cons.
Qed.

(** X2: every request of a client carries the header [x-api-key] with the
    key given to the constructor when that is non-empty, else with the key
    of the environment when that is non-empty, and carries no such header
    otherwise. *)
Theorem api_key_header env_key key b t m e ps js w req :
  req ∈ sent w (_make_request upstream (__init__ env_key key b t) m e ps js w).2 →
  headers req !! "x-api-key"%string
  = match Py.truthy key with
    | Some k => Some k
    | None => Py.truthy env_key
    end.
Proof.
  intros Hreq. on_wire req. subst req.
  unfold request_of, __init__. cbn [headers session_headers].
  destruct (Py.truthy key) as [k'|] eqn:Hkey.
  - assert (Py.truthy (Some k') = Some k') as ->
      by (by destruct key as [[]|]; simplify_eq/=).
    apply lookup_singleton_eq.
  - destruct (Py.truthy env_key); [apply lookup_singleton_eq | apply lookup_empty].
Qed.



End Construction.


Lemma api_key_header_witness :
  myriad_client.headers
    (myriad_client.request_of
       (myriad_client.__init__ (Some "env-key"%string) (Some ""%string) None None)
       "GET" "/markets" None None) !! "x-api-key"%string
  = Some "env-key"%string.
Proof.
  apply (api_key_header Spec.healthy (Some "env-key"%string) (Some ""%string) None None
           "GET" "/markets" None None []).
  vm_compute. constructor.
Defined.


(** ** The list endpoints *)

Lemma set_str_lookup_eq k v (d : gmap string pyobj) :
  d !! k = None → myriad_client.set_str k v d !! k = VStr <$> Py.truthy v.
Proof.
  intros H. unfold myriad_client.set_str.
  destruct (Py.truthy v); simpl; [by rewrite lookup_insert_eq | done].
Qed.

Lemma set_str_lookup_ne k k' v (d : gmap string pyobj) :
  k ≠ k' → myriad_client.set_str k v d !! k' = d !! k'.
Proof.
  intros H. unfold myriad_client.set_str.
  destruct (Py.truthy v); [by rewrite lookup_insert_ne | done].
Qed.

(** Looks a key up in query parameters built by [set_opt] and [set_str]. *)
Ltac params_skip :=
  repeat first [ rewrite set_opt_lookup_ne by done
               | rewrite set_str_lookup_ne by done ].

Ltac params_lookup :=
  params_skip;
  first [ rewrite set_opt_lookup_eq by (params_skip; by simplify_map_eq); done
        | rewrite set_str_lookup_eq by (params_skip; by simplify_map_eq); done
        | by simplify_map_eq ].

Section ListEndpoints.

#[local] Opaque myriad_client._make_request.

Import myriad_client.

Variable upstream : nat -> request -> response.
Variable self : MyriadAPIClient.





End ListEndpoints.

(** ** Market lookups and quotes *)

Section MarketRequests.

#[local] Opaque myriad_client._make_request.

Import myriad_client.

Variable upstream : nat -> request -> response.
Variable self : MyriadAPIClient.

(** X9: every request of [get_market_events] is a GET whose query holds
    [page] and [limit] (1 and 50 when left out) and holds [since], [until]
    and [network_id] exactly when they are not [None], zero included;
    [get_market_holders] does the same without the time window. *)
Theorem events_and_holders_query
    market_id slug network_id page limit since until w req :
  (req ∈ sent w (get_market_events upstream self market_id slug network_id
                   page limit since until w).2 →
   method req = "GET"%string ∧ json req = None
   ∧ ∃ p, params req = Some p
          ∧ p !! "page"%string = Some (VInt (Py.kwarg 1 page))
          ∧ p !! "limit"%string = Some (VInt (Py.kwarg 50 limit))
          ∧ p !! "since"%string = VInt <$> since
          ∧ p !! "until"%string = VInt <$> until
          ∧ p !! "network_id"%string = VInt <$> network_id)
  ∧
  (req ∈ sent w (get_market_holders upstream self market_id slug network_id
                   page limit w).2 →
   method req = "GET"%string ∧ json req = None
   ∧ ∃ p, params req = Some p
          ∧ p !! "page"%string = Some (VInt (Py.kwarg 1 page))
          ∧ p !! "limit"%string = Some (VInt (Py.kwarg 50 limit))
          ∧ p !! "since"%string = None
          ∧ p !! "until"%string = None
          ∧ p !! "network_id"%string = VInt <$> network_id).
Proof.
  unfold get_market_events, get_market_holders, raise. split; intros Hreq.
  - destruct (Py.truthy slug); [| destruct market_id];
      try (rewrite sent_nil in Hreq; by apply elem_of_nil in Hreq);
      on_wire req; subst req; simpl;
      (split; [done|]); (split; [done|]); eexists; (split; [done|]);
      repeat split; params_lookup.
  - destruct (Py.truthy slug); [| destruct market_id];
      try (rewrite sent_nil in Hreq; by apply elem_of_nil in Hreq);
      on_wire req; subst req; simpl;
      (split; [done|]); (split; [done|]); eexists; (split; [done|]);
      repeat split; params_lookup.
Qed.

(** X10: [get_market] raises [ValueError], with nothing sent, exactly when
    there is neither a non-empty slug nor both [market_id] and
    [network_id]; addressed by the pair, zero ids included, it sends
    [GET /markets/{market_id}] with [network_id] as the only query
    parameter. *)
Theorem get_market_by_id market_id slug network_id w :
  (Spec.addressed slug market_id network_id = false ↔
   ∃ msg, get_market upstream self market_id slug network_id w
          = (inl (ValueError msg), w))
  ∧
  (∀ m n, Py.truthy slug = None → market_id = Some m → network_id = Some n →
     ∃ k, (1 ≤ k)%nat
          ∧ sent w (get_market upstream self market_id slug network_id w).2
            = replicate k
                (request_of self "GET" ("/markets/" +:+ Py.fmt_int m)
                   (Some {[ "network_id"%string := VInt n ]}) None)).
Proof.
  unfold get_market, raise, Spec.addressed. split.
  - destruct (Py.truthy slug); [| destruct market_id, network_id]; simpl;
      (split; [try done; by eexists |]); try done;
      intros [msg H]; exfalso;
      eapply make_request_no_ValueError; by rewrite H.
  - intros m n -> -> ->. apply make_request_sent_plain.
Qed.

(** X11: on a buy quote [shares] is ignored altogether: the call behaves as
    the one without [shares], and nothing it sends has a [shares] key. *)
Theorem buy_ignores_shares
    outcome_id market_id market_slug network_id value shares slippage w :
  get_market_quote upstream self outcome_id "buy"
    market_id market_slug network_id value shares slippage w
  = get_market_quote upstream self outcome_id "buy"
      market_id market_slug network_id value None slippage w
  ∧ ∀ req,
      req ∈ sent w (get_market_quote upstream self outcome_id "buy"
                      market_id market_slug network_id value shares slippage w).2 →
      ∃ b, json req = Some b ∧ b !! "shares"%string = None
           ∧ b !! "value"%string = VFloat <$> value.
Proof.
  split; [reflexivity|].
  unfold get_market_quote, bind, ret, raise. intros req Hreq.
  destruct (Py.truthy market_slug); [| destruct market_id, network_id];
    destruct value; simpl in Hreq;
    try (rewrite sent_nil in Hreq; by apply elem_of_nil in Hreq);
    on_wire req; subst req; simpl; eexists; (split; [done|]);
    by simplify_map_eq.
Qed.

(** X12: a sell quote that gives [shares] and no [value] is sent as soon
    as an addressing mode is resolved, the shares and the slippage being
    finite numbers; what it sends is a POST to [/markets/quote] without
    query parameters, whose body holds [shares] and has no [value] key. *)
Theorem sell_by_shares_only
    outcome_id market_id market_slug network_id s slippage w :
  (Spec.addressed market_slug market_id network_id = true →
   Py.isfinite s = true →
   Py.isfinite (Py.kwarg (Finite 0.005) slippage) = true →
   sent w (get_market_quote upstream self outcome_id "sell"
             market_id market_slug network_id None (Some s) slippage w).2 ≠ [])
  ∧ ∀ req,
      req ∈ sent w (get_market_quote upstream self outcome_id "sell"
                      market_id market_slug network_id None (Some s) slippage w).2 →
      method req = "POST"%string
      ∧ url req = base_url self +:+ "/markets/quote"
      ∧ params req = None
      ∧ ∃ b, json req = Some b ∧ b !! "shares"%string = Some (VFloat s)
             ∧ b !! "value"%string = None.
Proof.
  unfold get_market_quote, bind, ret, raise, Spec.addressed. split.
  - destruct (Py.truthy market_slug); [| destruct market_id, network_id];
      cbn [bool_decide andb]; try done; intros _ Hsh Hsl;
      apply went_through; body_encodable.
  - intros req Hreq.
    destruct (Py.truthy market_slug); [| destruct market_id, network_id];
      simpl in Hreq;
      try (rewrite sent_nil in Hreq; by apply elem_of_nil in Hreq);
      on_wire req; subst req; simpl;
      (split; [done|]); (split; [done|]); (split; [done|]);
      eexists; (split; [done|]); by simplify_map_eq.
Qed.

(** X13: a quote addressed by [market_id] and [network_id], in the absence
    of a non-empty slug, names the market in the body by these two keys and
    has no [market_slug] key. *)
Theorem quote_addressed_by_id
    outcome_id action m n market_slug value shares slippage w req :
  Py.truthy market_slug = None →
  req ∈ sent w (get_market_quote upstream self outcome_id action
                  (Some m) market_slug (Some n) value shares slippage w).2 →
  ∃ b, json req = Some b
       ∧ b !! "market_id"%string = Some (VInt m)
       ∧ b !! "network_id"%string = Some (VInt n)
       ∧ b !! "market_slug"%string = None.
Proof.
  unfold get_market_quote, bind, ret, raise. intros -> Hreq. simpl in Hreq.
  destruct (String.eqb action "buy"); [| destruct (String.eqb action "sell")];
    destruct value; try destruct shares; simpl in Hreq;
    try (rewrite sent_nil in Hreq; by apply elem_of_nil in Hreq);
    on_wire req; subst req; simpl; eexists; (split; [done|]);
    by simplify_map_eq.
Qed.

End MarketRequests.

Lemma events_and_holders_query_witness :
  ∃ req p,
    myriad_client.sent []
      (myriad_client.get_market_events Spec.healthy Spec.client
         None (Some "foo"%string) None None None (Some 0) None []).2 = [req]
    ∧ myriad_client.params req = Some p
    ∧ p !! "since"%string = Some (VInt 0)
    ∧ p !! "until"%string = None
    ∧ p !! "limit"%string = Some (VInt 50).
Proof.
  eexists.
  destruct (proj1 (events_and_holders_query Spec.healthy Spec.client
                     None (Some "foo"%string) None None None (Some 0) None [] _)
              ltac:(vm_compute; constructor))
    as (_ & _ & p & Hp & _ & Hlimit & Hsince & Huntil & _).
  exists p. split; [vm_compute; reflexivity |].
  split; [exact Hp|]. split; [exact Hsince|]. split; [exact Huntil | exact Hlimit].
Defined.

Lemma get_market_by_id_witness :
  ∃ k, (1 ≤ k)%nat
       ∧ myriad_client.sent []
           (myriad_client.get_market Spec.healthy Spec.client (Some 0) None (Some 0) []).2
         = replicate k
             (myriad_client.request_of Spec.client "GET" "/markets/0"
                (Some {[ "network_id"%string := VInt 0 ]}) None).
Proof.
  exact (proj2 (get_market_by_id Spec.healthy Spec.client (Some 0) None (Some 0) [])
           0 0 eq_refl eq_refl eq_refl).
Defined.

Lemma buy_ignores_shares_witness :
  ∃ req b,
    myriad_client.sent []
      (myriad_client.get_market_quote Spec.healthy Spec.client 1 "buy"
         None (Some "foo"%string) None (Some (Finite 10)) (Some (Finite 3)) None []).2 = [req]
    ∧ myriad_client.json req = Some b
    ∧ b !! "shares"%string = None.
Proof.
  eexists.
  destruct (proj2 (buy_ignores_shares Spec.healthy Spec.client 1
                     None (Some "foo"%string) None (Some (Finite 10)) (Some (Finite 3)) None [])
              _ ltac:(vm_compute; constructor))
    as (b & Hb & Hshares & _).
  exists b. split; [vm_compute; reflexivity |]. split; [exact Hb | exact Hshares].
Defined.

Lemma sell_by_shares_only_witness :
  ∃ req b,
    myriad_client.sent []
      (myriad_client.get_market_quote Spec.healthy Spec.client 1 "sell"
         (Some 7) None (Some 56) None (Some (Finite 3)) None []).2 = [req]
    ∧ myriad_client.json req = Some b
    ∧ b !! "shares"%string = Some (VFloat (Finite 3))
    ∧ b !! "value"%string = None.
Proof.
  eexists.
  destruct (proj2 (sell_by_shares_only Spec.healthy Spec.client 1
                     (Some 7) None (Some 56) (Finite 3) None [])
              _ ltac:(vm_compute; constructor))
    as (_ & _ & _ & b & Hb & Hshares & Hvalue).
  exists b. split; [vm_compute; reflexivity |].
  split; [exact Hb|]. split; [exact Hshares | exact Hvalue].
Defined.

Lemma quote_addressed_by_id_witness :
  ∃ req b,
    myriad_client.sent []
      (myriad_client.get_market_quote Spec.healthy Spec.client 1 "buy"
         (Some 7) (Some ""%string) (Some 56) (Some (Finite 10)) None None []).2 = [req]
    ∧ myriad_client.json req = Some b
    ∧ b !! "market_id"%string = Some (VInt 7)
    ∧ b !! "market_slug"%string = None.
Proof.
  eexists.
  destruct (quote_addressed_by_id Spec.healthy Spec.client 1 "buy" 7 56
              (Some ""%string) (Some (Finite 10)) None None [] _
              eq_refl ltac:(vm_compute; constructor))
    as (b & Hb & Hid & _ & Hslug).
  exists b. split; [vm_compute; reflexivity |].
  split; [exact Hb|]. split; [exact Hid | exact Hslug].
Defined.

(** * Further properties of the gateway state *)

Section GatewayState.

Import api.

(** X14: [update_state] always stamps [last_update] with the current time,
    also when the payload carries that key; every other key of the payload
    replaces the stored value, new keys included, and every key the payload
    does not have keeps its value. *)
Theorem update_state_lookup state_data now (st : gmap string pyobj) :
  update_state state_data now st !! "last_update"%string = Some (VStr now)
  ∧ ∀ k, k ≠ "last_update"%string →
         update_state state_data now st !! k
         = match state_data !! k with Some v => Some v | None => st !! k end.
Proof.
  unfold update_state. split; [apply lookup_insert_eq|].
  intros k Hk. rewrite lookup_insert_ne by done. rewrite lookup_union.
  by destruct (state_data !! k), (st !! k).
Qed.

(** X15: a successful [add_decision] changes the key [recent_decisions]
    only, and a successful [add_trade] puts the trade at the head of the
    history, keeps all earlier entries and changes no other key. *)
Theorem ingest_frame d t (st st' : gmap string pyobj) :
  (add_decision d st = inr st' →
   ∀ k, k ≠ "recent_decisions"%string → st' !! k = st !! k)
  ∧ (add_trade t st = inr st' →
     trade_history st' = Trade_dict t :: trade_history st
     ∧ ∀ k, k ≠ "trade_history"%string → st' !! k = st !! k).
Proof.
  unfold add_decision, add_trade, trade_history. split.
  - destruct (st !! "recent_decisions"%string) as [[]|]; try done.
    intros [= <-] k Hk. by rewrite lookup_insert_ne.
  - destruct (st !! "trade_history"%string) as [[]|]; try done.
    intros [= <-]. rewrite lookup_insert_eq. split; [done|].
    intros k Hk. by rewrite lookup_insert_ne.
Qed.

(** X16: [add_decision] succeeds exactly when the state holds a list under
    [recent_decisions], and [add_trade] exactly when it holds a list under
    [trade_history]; a call that fails leaves the state to [step] as it
    was. *)
Theorem ingest_succeeds_iff_list d t (st : gmap string pyobj) :
  ((∃ st', add_decision d st = inr st')
   ↔ ∃ l, st !! "recent_decisions"%string = Some (VList l))
  ∧ ((∃ st', add_trade t st = inr st')
     ↔ ∃ l, st !! "trade_history"%string = Some (VList l))
  ∧ ((∀ l, st !! "recent_decisions"%string ≠ Some (VList l)) →
     step st (AddDecision d) = st)
  ∧ ((∀ l, st !! "trade_history"%string ≠ Some (VList l)) →
     step st (AddTrade t) = st).
Proof.
  unfold add_decision, add_trade, step.
  split; [| split; [| split]].
  - destruct (st !! "recent_decisions"%string) as [[]|];
      split; intros [x Hx]; try done; eauto.
  - destruct (st !! "trade_history"%string) as [[]|];
      split; intros [x Hx]; try done; eauto.
  - intros H. unfold add_decision.
    destruct (st !! "recent_decisions"%string) as [[]|]; try done.
    by destruct (H l).
  - intros H. unfold add_trade.
    destruct (st !! "trade_history"%string) as [[]|]; try done.
    by destruct (H l).
Qed.

Lemma step_lists_ok st o :
  Spec.keeps_lists o → Spec.lists_ok st → Spec.lists_ok (step st o).
Proof.
  intros Hk [[l1 H1] [l2 H2]]. unfold Spec.lists_ok.
  destruct o as [data now|d|t|now|]; simpl in *.
  - destruct Hk as [Hd Ht]. unfold update_state.
    rewrite !lookup_insert_ne by done.
    rewrite !lookup_union_r by done. eauto.
  - unfold add_decision. rewrite H1.
    rewrite lookup_insert_eq, lookup_insert_ne by done. eauto.
  - unfold add_trade. rewrite H2.
    rewrite lookup_insert_eq, lookup_insert_ne by done. eauto.
  - unfold startup_event. rewrite !lookup_insert_ne by done. eauto.
  - unfold shutdown_event. rewrite !lookup_insert_ne by done. eauto.
Qed.

Lemma run_lists_ok ops st :
  Forall Spec.keeps_lists ops → Spec.lists_ok st → Spec.lists_ok (run ops st).
Proof.
  intros Hops. revert st. induction Hops as [|o ops Ho _ IH]; intros st Hst; [done|].
  apply IH. by apply step_lists_ok.
Qed.

Lemma initial_lists_ok : Spec.lists_ok gtrader_state.
Proof. split; eexists; vm_compute; reflexivity. Qed.

(** X17: from the initial state, after any sequence of calls in which no
    [update_state] carries [recent_decisions] or [trade_history], both keys
    still hold lists, so that [add_decision] and [add_trade] succeed. *)
Theorem ingest_never_fails ops d t :
  Forall Spec.keeps_lists ops →
  (∃ st', add_decision d (run ops gtrader_state) = inr st')
  ∧ (∃ st', add_trade t (run ops gtrader_state) = inr st').
Proof.
  intros Hops.
  destruct (run_lists_ok ops gtrader_state Hops initial_lists_ok) as [[l1 H1] [l2 H2]].
  unfold add_decision, add_trade. rewrite H1, H2. eauto.
Qed.

Lemma add_trade_total t (st : gmap string pyobj) l :
  st !! "trade_history"%string = Some (VList l) →
  add_trade t st = inr (<[ "trade_history"%string := VList (Trade_dict t :: l) ]> st).
Proof. intros H. unfold add_trade. by rewrite H. Qed.

(** X18: the trade history is not bounded: trades ingested one after the
    other all stay, newest first, in front of what was stored. *)
Theorem trade_history_grows ts (st : gmap string pyobj) l :
  st !! "trade_history"%string = Some (VList l) →
  trade_history (run (AddTrade <$> ts) st) = reverse (Trade_dict <$> ts) ++ l
  ∧ length (trade_history (run (AddTrade <$> ts) st)) = (length ts + length l)%nat.
Proof.
  intros Hst.
  assert (E : trade_history (run (AddTrade <$> ts) st)
              = reverse (Trade_dict <$> ts) ++ l).
  { revert st l Hst. induction ts as [|t ts IH]; intros st l Hst; simpl.
    - unfold trade_history. by rewrite Hst.
    - rewrite (add_trade_total t st l Hst).
      rewrite (IH _ (Trade_dict t :: l)) by (by rewrite lookup_insert_eq).
      by rewrite reverse_cons, <- app_assoc. }
  rewrite E. split; [done|].
  by rewrite length_app, length_reverse, length_fmap.
Qed.

End GatewayState.

(** ** Reading the ingested lists back *)

Section ReadBack.

Import api.

Variable str_upper : string → string.

Lemma ascii_upper_char_idem c :
  Py.ascii_upper_char (Py.ascii_upper_char c) = Py.ascii_upper_char c.
Proof. destruct c as [[] [] [] [] [] [] [] []]; vm_compute; reflexivity. Qed.

(** Upper-casing the letters a to z leaves no such letter behind. *)
Lemma ascii_upper_idem s : Py.ascii_upper (Py.ascii_upper s) = Py.ascii_upper s.
Proof.
  induction s as [|c s IH]; simpl; [done|]. by rewrite ascii_upper_char_idem, IH.
Qed.

Lemma select_sublist k want l r : select k want l = inr r → r `sublist_of` l.
Proof.
  revert r. induction l as [|x l IH]; simpl; intros r.
  - by intros [= <-].
  - destruct (dict_get x k); [done|].
    destruct (select k want l) as [e|r']; [done|].
    destruct (eq_str _ _); intros [= <-].
    + by apply sublist_skip, IH.
    + by apply sublist_cons, IH.
Qed.

Lemma Trade_fields_asset t : Trade_fields t !! "asset"%string = Some (VStr (tr_asset t)).
Proof. reflexivity. Qed.

Lemma Trade_fields_status t : Trade_fields t !! "status"%string = Some (VStr (tr_status t)).
Proof. reflexivity. Qed.

(** X19: a trade whose ticker is the upper-case form, by [str.upper], of
    the asset asked for is, once ingested, the first entry of the answer to
    [GET /trades] filtered by that asset and by the trade's status; the
    rest of the answer is what the same query gave before, cut to the
    limit. *)
Theorem add_trade_then_query t a limit ts (st st' : gmap string pyobj) :
  st !! "trade_history"%string = Some (VList (VDict <$> ts)) →
  add_trade t st = inr st' →
  Py.truthy (Some a) = Some a → str_upper a = tr_asset t →
  Py.truthy (Some (tr_status t)) = Some (tr_status t) →
  (0 < limit)%nat →
  get_trade_history str_upper (Some limit) (Some a) (Some (tr_status t)) st'
  = inr (Trade_dict t ::
         (VDict <$> take (limit - 1)
            (List.filter
               (λ x, Spec.field_is "asset" (str_upper a) x
                     && Spec.field_is "status" (tr_status t) x) ts))).
Proof.
  intros Hst Hadd Ha Hup Hs Hlimit.
  rewrite (add_trade_total t st _ Hst) in Hadd. injection Hadd as <-.
  unfold get_trade_history. rewrite lookup_insert_eq, Ha, Hs.
  change (Trade_dict t :: (VDict <$> ts)) with (VDict <$> (Trade_fields t :: ts)).
  rewrite select_dicts, select_dicts, filter_filter_andb.
  cbn [List.filter].
  assert (Spec.field_is "asset" (str_upper a) (Trade_fields t) = true) as ->
    by (apply field_is_true; rewrite Hup; apply Trade_fields_asset).
  assert (Spec.field_is "status" (tr_status t) (Trade_fields t) = true) as ->
    by (apply field_is_true, Trade_fields_status).
  cbn [andb Py.kwarg]. destruct limit as [|n]; [lia|].
  rewrite fmap_cons. cbn [take]. rewrite fmap_take.
  by replace (S n - 1)%nat with n by lia.
Qed.

(** X20: for an asset query on which [str.upper] is the upper-casing of
    the letters a to z, as it is on every ASCII query, [GET /trades] and
    [GET /decisions] only return entries whose stored ticker has no letter
    a to z in lower case: an entry stored with such a letter in its ticker
    is out of reach of these queries. *)
Theorem asset_filter_returns_uppercase_only limit asset status a st r x :
  Py.truthy asset = Some a →
  str_upper a = Py.ascii_upper a →
  (get_trade_history str_upper limit asset status st = inr r
   ∨ get_decisions str_upper limit asset st = inr r) →
  x ∈ r →
  ∃ d s, x = VDict d ∧ d !! "asset"%string = Some (VStr s) ∧ Py.ascii_upper s = s.
Proof.
  intros Ha Hup Hr Hx.
  assert (∃ l r1, select "asset" (str_upper a) l = inr r1 ∧ x ∈ r1)
    as (l & r1 & Hsel & Hin).
  { destruct Hr as [Hr|Hr].
    - unfold get_trade_history in Hr. rewrite Ha in Hr.
      destruct (st !! "trade_history"%string) as [[| | | | |trades|]|]; try done.
      destruct (select "asset" (str_upper a) trades) as [e|r1] eqn:E1; [done|].
      exists trades, r1. split; [done|].
      destruct (Py.truthy status) as [s|].
      + destruct (select "status" s r1) as [e|r2] eqn:E2; [done|].
        injection Hr as <-. apply elem_of_take in Hx as (i & Hx & _).
        apply list_elem_of_lookup_2 in Hx.
        by destruct (select_sound _ _ _ _ E2 x Hx).
      + injection Hr as <-. apply elem_of_take in Hx as (i & Hx & _).
        by apply list_elem_of_lookup_2 in Hx.
    - unfold get_decisions in Hr. rewrite Ha in Hr.
      destruct (st !! "recent_decisions"%string) as [[| | | | |ds|]|]; try done.
      destruct (select "asset" (str_upper a) ds) as [e|r1] eqn:E1; [done|].
      exists ds, r1. split; [done|].
      injection Hr as <-. apply elem_of_take in Hx as (i & Hx & _).
      by apply list_elem_of_lookup_2 in Hx. }
  destruct (select_sound _ _ _ _ Hsel x Hin) as (_ & d & -> & Hd).
  exists d, (str_upper a). split; [done|]. split; [done|].
  rewrite Hup. apply ascii_upper_idem.
Qed.

(** X21: an answer of [GET /trades] or [GET /decisions] has at most
    [limit] entries and is a sublist of the stored list: stored entries, in
    stored order, nothing added. *)
Theorem answers_are_bounded_sublists limit asset status st r :
  (get_trade_history str_upper (Some limit) asset status st = inr r →
   (length r ≤ limit)%nat ∧ r `sublist_of` trade_history st)
  ∧ (get_decisions str_upper (Some limit) asset st = inr r →
     (length r ≤ limit)%nat ∧ r `sublist_of` recent_decisions st).
Proof.
  unfold get_trade_history, get_decisions, trade_history, recent_decisions.
  cbn [Py.kwarg]. split.
  - destruct (st !! "trade_history"%string) as [[| | | | |trades|]|]; try done.
    destruct (Py.truthy asset) as [a|].
    + destruct (select "asset" (str_upper a) trades) as [e|r1] eqn:E1; [done|].
      apply select_sublist in E1.
      destruct (Py.truthy status) as [s|].
      * destruct (select "status" s r1) as [e|r2] eqn:E2; [done|].
        apply select_sublist in E2. intros [= <-].
        split; [rewrite length_take; lia|].
        etrans; [apply sublist_take|]. by etrans.
      * intros [= <-]. split; [rewrite length_take; lia|].
        etrans; [apply sublist_take | done].
    + destruct (Py.truthy status) as [s|].
      * destruct (select "status" s trades) as [e|r2] eqn:E2; [done|].
        apply select_sublist in E2. intros [= <-].
        split; [rewrite length_take; lia|].
        etrans; [apply sublist_take | done].
      * intros [= <-]. split; [rewrite length_take; lia | apply sublist_take].
  - destruct (st !! "recent_decisions"%string) as [[| | | | |ds|]|]; try done.
    destruct (Py.truthy asset) as [a|].
    + destruct (select "asset" (str_upper a) ds) as [e|r1] eqn:E1; [done|].
      apply select_sublist in E1. intros [= <-].
      split; [rewrite length_take; lia|].
      etrans; [apply sublist_take | done].
    + intros [= <-]. split; [rewrite length_take; lia | apply sublist_take].
Qed.

End ReadBack.

Section ReadBackDecisions.

Import api.

Variable str_upper : string → string.

Lemma TradeDecision_dict_asset d :
  ∃ fields, TradeDecision_dict d = VDict fields
            ∧ fields !! "asset"%string = Some (VStr (td_asset d)).
Proof. eexists. split; reflexivity. Qed.

(** X22: after a successful [add_decision], [GET /decisions] without a
    filter answers with the new decision first, followed by the earlier
    ones up to the limit; filtered by an asset whose upper-case form, by
    [str.upper], is the decision's ticker, it answers with the new decision
    first as well. *)
Theorem add_decision_then_get_decisions d a limit ds (st st' : gmap string pyobj) :
  add_decision d st = inr st' →
  (0 < limit)%nat →
  get_decisions str_upper (Some limit) None st'
  = inr (TradeDecision_dict d :: take (limit - 1) (take 99 (recent_decisions st)))
  ∧ (st !! "recent_decisions"%string = Some (VList (VDict <$> ds)) →
     Py.truthy (Some a) = Some a → str_upper a = td_asset d →
     ∃ rest, get_decisions str_upper (Some limit) (Some a) st'
             = inr (TradeDecision_dict d :: rest)).
Proof.
  intros Hadd Hlimit. unfold add_decision, recent_decisions in *.
  destruct (st !! "recent_decisions"%string) as [[| | | | |l|]|] eqn:Hst; try done.
  injection Hadd as <-. unfold get_decisions.
  rewrite lookup_insert_eq. cbn [Py.kwarg Py.truthy take].
  destruct limit as [|n]; [lia|]. split.
  - cbn [take]. by replace (S n - 1)%nat with n by lia.
  - intros [= ->] Ha Hup. rewrite Ha.
    destruct (TradeDecision_dict_asset d) as (fields & Hd & Hasset).
    rewrite Hd. rewrite <- fmap_take.
    change (VDict fields :: (VDict <$> take 99 ds))
      with (VDict <$> (fields :: take 99 ds)).
    rewrite select_dicts. cbn [List.filter].
    assert (Spec.field_is "asset" (str_upper a) fields = true) as ->
      by (apply field_is_true; by rewrite Hup).
    rewrite fmap_cons. cbn [take]. eauto.
Qed.

(** X23: after an [update_state] whose payload holds a list of positions
    and an account value, [GET /account] reports the number of positions in
    that list, that account value, the time of the update, and the status
    of the payload, or the stored one when the payload has none. *)
Theorem account_info_after_update state_data now ps v s (st : gmap string pyobj) :
  state_data !! "positions"%string = Some (VList ps) →
  state_data !! "account_value"%string = Some v →
  match state_data !! "status"%string with
  | Some x => Some x
  | None => st !! "status"%string
  end = Some s →
  get_account_info (update_state state_data now st)
  = inr (<[ "last_update"%string := VStr now ]>
           (<[ "status"%string := s ]>
              (<[ "total_positions"%string := VInt (Z.of_nat (length ps)) ]>
                 {[ "account_value"%string := v ]}))).
Proof.
  intros Hps Hv Hs. unfold get_account_info, getitem, update_state.
  rewrite lookup_insert_eq, !lookup_insert_ne by done.
  rewrite (lookup_union_Some_l _ _ _ _ Hv), (lookup_union_Some_l _ _ _ _ Hps).
  cbn [py_len]. rewrite lookup_union.
  destruct (state_data !! "status"%string) as [x|], (st !! "status"%string) as [y|];
    simplify_eq/=; done.
Qed.

End ReadBackDecisions.

(** * The proxy endpoints of the gateway *)

Section ProxyFacts.

#[local] Opaque myriad_client._make_request.

Import myriad_client api.

Variable upstream : nat -> request -> response.
Variable client : MyriadAPIClient.

Lemma or_http_wire c (m : M pyobj) w : (or_http c m w).2 = (m w).2.
Proof. unfold or_http. by destruct (m w) as [[e|v] w']. Qed.

Lemma or_http_status c (m : M pyobj) w err w' :
  or_http c m w = (inl err, w') →
  http_status err = c ∧ (m w).1 = inl (detail err).
Proof.
  unfold or_http. destruct (m w) as [[e|v] w'']; [|done].
  by intros [= <- <-].
Qed.

(** X24: every failure of [POST /myriad/quote] is an HTTP 400, a failure of
    the transport included; a buy request without [value] is answered with
    400 and the [ValueError] as detail without anything being sent; and a
    quote the client obtains is handed back as it is. *)
Theorem quote_gateway_errors_are_400 request w :
  (∀ err w', get_myriad_quote upstream request client w = (inl err, w') →
             http_status err = 400)
  ∧ (q_action request = "buy"%string → q_value request = None →
     ∃ msg, get_myriad_quote upstream request client w
            = (inl {| http_status := 400; detail := ValueError msg |}, w))
  ∧ (∀ v w',
       get_market_quote upstream client (q_outcome_id request) (q_action request)
         (q_market_id request) (q_market_slug request) (q_network_id request)
         (q_value request) (q_shares request)
         (Some (Py.kwarg (Finite 0.005) (q_slippage request))) w = (inr v, w') →
       get_myriad_quote upstream request client w = (inr v, w')).
Proof.
  split; [|split].
  - intros err w' H. by apply or_http_status in H as [H _].
  - intros Hbuy Hval. unfold get_myriad_quote, or_http, get_market_quote, bind, ret, raise.
    rewrite Hbuy, Hval.
    destruct (Py.truthy (q_market_slug request));
      [| destruct (q_market_id request), (q_network_id request)]; simpl; eauto.
  - intros v w' H. unfold get_myriad_quote, or_http. by rewrite H.
Qed.

(** X25: [GET /myriad/markets/{market_id}] always reaches the upstream
    service, with [GET /markets/{market_id}] and [network_id] as the only
    query parameter; it cannot fail on addressing, so each of its failures
    is an HTTP 500 that carries a transport error. *)
Theorem market_gateway_always_sends market_id network_id w :
  (∃ k, (1 ≤ k)%nat
        ∧ sent w (get_myriad_market upstream market_id network_id client w).2
          = replicate k
              (request_of client "GET" ("/markets/" +:+ Py.fmt_int market_id)
                 (Some {[ "network_id"%string := VInt network_id ]}) None))
  ∧ ∀ err w', get_myriad_market upstream market_id network_id client w = (inl err, w') →
              http_status err = 500 ∧ ∃ e, detail err = RequestError e.
Proof.
  unfold get_myriad_market. split.
  - rewrite or_http_wire. unfold get_market. simpl. apply make_request_sent_plain.
  - intros err w' H. apply or_http_status in H as [Hc Hd]. split; [done|].
    unfold get_market in Hd. simpl in Hd.
    destruct (detail err) as [msg|e]; [| by eexists].
    by apply make_request_no_ValueError in Hd.
Qed.

(** X26: [GET /myriad/markets] forwards [page], [limit], [network_id],
    [state] and [keyword] only: the upstream query always asks for the
    order "volume", "desc" and never holds [token_address] or [topics];
    each of its failures is an HTTP 500. *)
Theorem markets_gateway_query network_id state keyword page limit w :
  (∃ k p,
     (1 ≤ k)%nat
     ∧ sent w (get_myriad_markets upstream network_id state keyword page limit client w).2
       = replicate k (request_of client "GET" "/markets" (Some p) None)
     ∧ p !! "page"%string = Some (VInt (Py.kwarg 1 page))
     ∧ p !! "limit"%string = Some (VInt (Py.kwarg 20 limit))
     ∧ p !! "sort"%string = Some (VStr "volume")
     ∧ p !! "order"%string = Some (VStr "desc")
     ∧ p !! "network_id"%string = VInt <$> network_id
     ∧ p !! "state"%string = VStr <$> Py.truthy state
     ∧ p !! "keyword"%string = VStr <$> Py.truthy keyword
     ∧ p !! "token_address"%string = None
     ∧ p !! "topics"%string = None)
  ∧ ∀ err w',
      get_myriad_markets upstream network_id state keyword page limit client w
      = (inl err, w') → http_status err = 500.
Proof.
  unfold get_myriad_markets. split.
  - rewrite or_http_wire. unfold get_markets.
    match goal with
    | |- context [_make_request ?u ?c ?m ?e ?p ?j ?w] =>
        destruct (make_request_sent u c m e p j w) as (k & Hk & E)
    end.
    exists k. eexists. split; [by apply Hk|]. split; [exact E|].
    cbn [Py.kwarg]. repeat split; params_lookup.
  - intros err w' H. by apply or_http_status in H as [H _].
Qed.

(** X27: [GET /myriad/user/{address}/portfolio] forwards [page], [limit]
    and [network_id] only: the upstream query never holds [market_slug],
    [market_id] or [token_address]; each of its failures is an HTTP 500. *)
Theorem portfolio_gateway_query address network_id page limit w :
  (∃ k p,
     (1 ≤ k)%nat
     ∧ sent w (get_myriad_user_portfolio upstream address network_id
                 page limit client w).2
       = replicate k (request_of client "GET" ("/users/" +:+ address +:+ "/portfolio")
                        (Some p) None)
     ∧ p !! "page"%string = Some (VInt (Py.kwarg 1 page))
     ∧ p !! "limit"%string = Some (VInt (Py.kwarg 20 limit))
     ∧ p !! "network_id"%string = VInt <$> network_id
     ∧ p !! "market_slug"%string = None
     ∧ p !! "market_id"%string = None
     ∧ p !! "token_address"%string = None)
  ∧ ∀ err w',
      get_myriad_user_portfolio upstream address network_id page limit client w
      = (inl err, w') → http_status err = 500.
Proof.
  unfold get_myriad_user_portfolio. split.
  - rewrite or_http_wire. unfold get_user_portfolio.
    match goal with
    | |- context [_make_request ?u ?c ?m ?e ?p ?j ?w] =>
        destruct (make_request_sent u c m e p j w) as (k & Hk & E)
    end.
    exists k. eexists. split; [by apply Hk|]. split; [exact E|].
    cbn [Py.kwarg]. repeat split; params_lookup.
  - intros err w' H. by apply or_http_status in H as [H _].
Qed.

End ProxyFacts.

(** * Instances *)

Lemma initial_trades : api.gtrader_state !! "trade_history"%string = Some (VList []).
Proof. vm_compute. reflexivity. Qed.

Lemma update_state_lookup_witness :
  api.update_state
    (<[ "last_update"%string := VStr "old" ]> {[ "status"%string := VStr "running" ]})
    "now" api.gtrader_state !! "last_update"%string = Some (VStr "now")
  ∧ api.update_state
      (<[ "last_update"%string := VStr "old" ]> {[ "status"%string := VStr "running" ]})
      "now" api.gtrader_state !! "status"%string = Some (VStr "running")
  ∧ api.update_state
      (<[ "last_update"%string := VStr "old" ]> {[ "status"%string := VStr "running" ]})
      "now" api.gtrader_state !! "trade_history"%string = Some (VList []).
Proof.
  destruct (update_state_lookup
              (<[ "last_update"%string := VStr "old" ]>
                 {[ "status"%string := VStr "running" ]})
              "now" api.gtrader_state) as [Hnow Hother].
  split; [exact Hnow|]. split.
  - rewrite (Hother "status"%string) by discriminate. vm_compute. reflexivity.
  - rewrite (Hother "trade_history"%string) by discriminate. vm_compute. reflexivity.
Defined.

Lemma ingest_frame_witness :
  (<[ "recent_decisions"%string :=
        VList (take 100 [api.TradeDecision_dict (Spec.decision_no 0)]) ]>
     api.gtrader_state) !! "status"%string
  = api.gtrader_state !! "status"%string
  ∧ api.trade_history
      (<[ "trade_history"%string := VList [api.Trade_dict (Spec.trade_of "BTC" "filled")] ]>
         api.gtrader_state)
    = api.Trade_dict (Spec.trade_of "BTC" "filled") :: api.trade_history api.gtrader_state.
Proof.
  split.
  - apply (proj1 (ingest_frame (Spec.decision_no 0) (Spec.trade_of "BTC" "filled")
                    api.gtrader_state _)
             (add_decision_total _ _ [] initial_lookup)).
    discriminate.
  - apply (proj2 (ingest_frame (Spec.decision_no 0) (Spec.trade_of "BTC" "filled")
                    api.gtrader_state _)
             (add_trade_total _ _ [] initial_trades)).
Defined.

Lemma ingest_succeeds_iff_list_witness :
  (∃ st', api.add_decision (Spec.decision_no 0) api.gtrader_state = inr st')
  ∧ api.step
      (api.update_state {[ "recent_decisions"%string := VNone ]} "now" api.gtrader_state)
      (api.AddDecision (Spec.decision_no 0))
    = api.update_state {[ "recent_decisions"%string := VNone ]} "now" api.gtrader_state.
Proof.
  split.
  - apply (proj1 (ingest_succeeds_iff_list (Spec.decision_no 0)
                    (Spec.trade_of "BTC" "filled") api.gtrader_state)).
    exists []. exact initial_lookup.
  - apply (proj1 (proj2 (proj2 (ingest_succeeds_iff_list (Spec.decision_no 0)
                    (Spec.trade_of "BTC" "filled") _)))).
    intros l H. vm_compute in H. discriminate H.
Defined.

Lemma ingest_never_fails_witness :
  (∃ st',
     api.add_decision (Spec.decision_no 1)
       (api.run [ api.Startup "t0"; api.AddTrade (Spec.trade_of "BTC" "filled");
                  api.UpdateState {[ "status"%string := VStr "idle" ]} "t1" ]
          api.gtrader_state) = inr st')
  ∧ (∃ st',
       api.add_trade (Spec.trade_of "ETH" "filled")
         (api.run [ api.Startup "t0"; api.AddTrade (Spec.trade_of "BTC" "filled");
                    api.UpdateState {[ "status"%string := VStr "idle" ]} "t1" ]
            api.gtrader_state) = inr st').
Proof.
  apply ingest_never_fails.
  apply List.Forall_cons; [exact I |].
  apply List.Forall_cons; [exact I |].
  apply List.Forall_cons; [| apply List.Forall_nil].
  split; by apply lookup_singleton_ne.
Defined.

Lemma trade_history_grows_witness :
  length (api.trade_history
            (api.run (api.AddTrade <$> replicate 150 (Spec.trade_of "BTC" "filled"))
               api.gtrader_state)) = 150%nat.
Proof.
  exact (proj2 (trade_history_grows (replicate 150 (Spec.trade_of "BTC" "filled"))
                  api.gtrader_state [] initial_trades)).
Defined.

Lemma add_trade_then_query_witness :
  api.get_trade_history Py.ascii_upper
    (Some 5%nat) (Some "btc"%string) (Some "filled"%string)
    (<[ "trade_history"%string := VList [api.Trade_dict (Spec.trade_of "BTC" "filled")] ]>
       api.gtrader_state)
  = inr [ api.Trade_dict (Spec.trade_of "BTC" "filled") ].
Proof.
  exact (add_trade_then_query Py.ascii_upper (Spec.trade_of "BTC" "filled") "btc" 5 []
           api.gtrader_state _ initial_trades
           (add_trade_total _ _ [] initial_trades)
           eq_refl eq_refl eq_refl ltac:(lia)).
Defined.

Lemma asset_filter_returns_uppercase_only_witness :
  ∃ d s,
    api.Trade_dict (Spec.trade_of "BTC" "filled") = VDict d
    ∧ d !! "asset"%string = Some (VStr s) ∧ Py.ascii_upper s = s.
Proof.
  apply (asset_filter_returns_uppercase_only Py.ascii_upper
           (Some 5%nat) (Some "btc"%string) (Some "filled"%string) "btc"
           (<[ "trade_history"%string :=
                 VList [api.Trade_dict (Spec.trade_of "BTC" "filled")] ]>
              api.gtrader_state)
           [ api.Trade_dict (Spec.trade_of "BTC" "filled") ]).
  - reflexivity.
  - reflexivity.
  - left. vm_compute. reflexivity.
  - constructor.
Defined.

Lemma answers_are_bounded_sublists_witness :
  (length [ api.Trade_dict (Spec.trade_of "BTC" "filled") ] ≤ 1)%nat
  ∧ [ api.Trade_dict (Spec.trade_of "BTC" "filled") ]
    `sublist_of`
    api.trade_history
      (<[ "trade_history"%string :=
            VList [ api.Trade_dict (Spec.trade_of "BTC" "filled");
                    api.Trade_dict (Spec.trade_of "ETH" "filled") ] ]>
         api.gtrader_state).
Proof.
  apply (proj1 (answers_are_bounded_sublists Py.ascii_upper
                  1 None (Some "filled"%string) _ _)).
  vm_compute. reflexivity.
Defined.

Lemma add_decision_then_get_decisions_witness :
  api.get_decisions Py.ascii_upper (Some 1%nat) None
    (<[ "recent_decisions"%string :=
          VList (take 100 [api.TradeDecision_dict (Spec.decision_no 0)]) ]>
       api.gtrader_state)
  = inr [ api.TradeDecision_dict (Spec.decision_no 0) ].
Proof.
  exact (proj1 (add_decision_then_get_decisions Py.ascii_upper
                  (Spec.decision_no 0) "btc" 1 []
                  api.gtrader_state _
                  (add_decision_total _ _ [] initial_lookup) ltac:(lia))).
Defined.

Lemma account_info_after_update_witness :
  api.get_account_info
    (api.update_state
       (<[ "positions"%string := VList [VDict ∅; VDict ∅] ]>
          {[ "account_value"%string := VFloat (Finite 1000) ]})
       "now" api.gtrader_state)
  = inr (<[ "last_update"%string := VStr "now" ]>
           (<[ "status"%string := VStr "idle" ]>
              (<[ "total_positions"%string := VInt 2 ]>
                 {[ "account_value"%string := VFloat (Finite 1000) ]}))).
Proof.
  apply (account_info_after_update
           (<[ "positions"%string := VList [VDict ∅; VDict ∅] ]>
              {[ "account_value"%string := VFloat (Finite 1000) ]})
           "now" [VDict ∅; VDict ∅] (VFloat (Finite 1000)) (VStr "idle") api.gtrader_state);
    vm_compute; reflexivity.
Defined.

Lemma quote_gateway_errors_are_400_witness :
  api.get_myriad_quote Spec.healthy
    {| api.q_market_id := None; api.q_market_slug := Some "foo"%string;
       api.q_network_id := None; api.q_outcome_id := 0; api.q_action := "buy";
       api.q_value := None; api.q_shares := Some (Finite 3); api.q_slippage := None |}
    Spec.client []
  = (inl {| api.http_status := 400;
            api.detail := myriad_client.ValueError "For buy action, 'value' is required" |},
     [])
  ∧ ∃ e w',
      api.get_myriad_quote Spec.not_found
        {| api.q_market_id := None; api.q_market_slug := Some "foo"%string;
           api.q_network_id := None; api.q_outcome_id := 0; api.q_action := "buy";
           api.q_value := Some (Finite 1); api.q_shares := None; api.q_slippage := None |}
        Spec.client []
      = (inl {| api.http_status := 400; api.detail := myriad_client.RequestError e |}, w').
Proof.
  split.
  - destruct (proj1 (proj2 (quote_gateway_errors_are_400 Spec.healthy Spec.client
                {| api.q_market_id := None; api.q_market_slug := Some "foo"%string;
                   api.q_network_id := None; api.q_outcome_id := 0;
                   api.q_action := "buy"; api.q_value := None;
                   api.q_shares := Some (Finite 3); api.q_slippage := None |} []))
                eq_refl eq_refl) as [msg H].
    rewrite H. vm_compute in H. by injection H as <-.
  - destruct (api.get_myriad_quote Spec.not_found
                {| api.q_market_id := None; api.q_market_slug := Some "foo"%string;
                   api.q_network_id := None; api.q_outcome_id := 0;
                   api.q_action := "buy"; api.q_value := Some (Finite 1);
                   api.q_shares := None; api.q_slippage := None |}
                Spec.client []) as [[[c d]|v] w'] eqn:E.
    + pose proof (proj1 (quote_gateway_errors_are_400 Spec.not_found Spec.client
                           _ []) _ _ E) as Hc.
      simpl in Hc. subst c. vm_compute in E. injection E as <- <-. eauto.
    + vm_compute in E. discriminate E.
Defined.

Lemma market_gateway_always_sends_witness :
  ∃ e w',
    api.get_myriad_market Spec.not_found 7 56 Spec.client []
    = (inl {| api.http_status := 500; api.detail := myriad_client.RequestError e |}, w').
Proof.
  destruct (api.get_myriad_market Spec.not_found 7 56 Spec.client [])
    as [[[c d]|v] w'] eqn:E.
  - destruct (proj2 (market_gateway_always_sends Spec.not_found Spec.client 7 56 [])
                _ _ E) as [Hc [e He]].
    simpl in Hc, He. subst c d. eauto.
  - vm_compute in E. discriminate E.
Defined.

Lemma markets_gateway_query_witness :
  ∃ d w',
    api.get_myriad_markets Spec.not_found None None None None None Spec.client []
    = (inl {| api.http_status := 500; api.detail := d |}, w').
Proof.
  destruct (api.get_myriad_markets Spec.not_found None None None None None Spec.client [])
    as [[[c d]|v] w'] eqn:E.
  - pose proof (proj2 (markets_gateway_query Spec.not_found Spec.client
                         None None None None None []) _ _ E) as Hc.
    simpl in Hc. subst c. eauto.
  - vm_compute in E. discriminate E.
Defined.

Lemma portfolio_gateway_query_witness :
  ∃ d w',
    api.get_myriad_user_portfolio Spec.not_found "0xabc" None None None Spec.client []
    = (inl {| api.http_status := 500; api.detail := d |}, w').
Proof.
  destruct (api.get_myriad_user_portfolio Spec.not_found "0xabc" None None None
              Spec.client []) as [[[c d]|v] w'] eqn:E.
  - pose proof (proj2 (portfolio_gateway_query Spec.not_found Spec.client
                         "0xabc" None None None []) _ _ E) as Hc.
    simpl in Hc. subst c. eauto.
  - vm_compute in E. discriminate E.
Defined.
